(** * A plugin task runner built on the interpreter's import system

    Shallow embedding of [task_runner.py] and [import_hook_demo.py].

    The interpreter state that the two programs touch is made explicit:
    [sys.modules] (the unit cache), the module objects it points to (kept in
    a heap, so that object identity is observable), [sys.meta_path] (the
    resolver chain) and standard output.  The file system is a read-only
    parameter.  Functions of the two programs keep their names; the parts of
    [importlib] they call are gathered in the module [Importlib]. *)

From Stdlib Require Import ZArith Ascii.
From stdpp Require Import base option list gmap strings sorting pretty.

Local Open Scope Z_scope.

(** ** Strings, as [str] methods use them *)

Module Str.

(** [s.startswith(pre)] *)
Fixpoint startswith (s pre : string) {struct pre} : bool :=
  match pre with
  | EmptyString => true
  | String c pre' =>
      match s with
      | EmptyString => false
      | String d s' => if Ascii.eqb c d then startswith s' pre' else false
      end
  end.

(** [s[n:]] *)
Fixpoint drop (n : nat) (s : string) : string :=
  match n with
  | O => s
  | S n' => match s with EmptyString => EmptyString | String _ s' => drop n' s' end
  end.

(** [s[:n]] *)
Fixpoint take (n : nat) (s : string) : string :=
  match n with
  | O => EmptyString
  | S n' => match s with EmptyString => EmptyString | String c s' => String c (take n' s') end
  end.

(** [s.endswith(suf)] *)
Definition endswith (s suf : string) : bool :=
  String.eqb (drop (String.length s - String.length suf) s) suf
  && (String.length suf <=? String.length s)%nat.

(** [s.rfind(c)], as an option instead of [-1] *)
Fixpoint rfind_from (c : ascii) (s : string) (i : nat) (found : option nat) : option nat :=
  match s with
  | EmptyString => found
  | String d s' => rfind_from c s' (S i) (if Ascii.eqb c d then Some i else found)
  end.

Definition rfind (c : ascii) (s : string) : option nat := rfind_from c s O None.

(** [s.split(c)] *)
Fixpoint split_go (c : ascii) (s cur : string) : list string :=
  match s with
  | EmptyString => [String.rev cur]
  | String d s' =>
      if Ascii.eqb c d then String.rev cur :: split_go c s' EmptyString
      else split_go c s' (String d cur)
  end.

Definition split (c : ascii) (s : string) : list string := split_go c s EmptyString.

(** [c in s] for a single character *)
Fixpoint contains (s : string) (c : ascii) : bool :=
  match s with
  | EmptyString => false
  | String d s' => if Ascii.eqb c d then true else contains s' c
  end.

(** One hexadecimal digit. *)
Definition hex_digit (n : N) : ascii :=
  match n with
  | 0%N => "0" | 1%N => "1" | 2%N => "2" | 3%N => "3" | 4%N => "4" | 5%N => "5"
  | 6%N => "6" | 7%N => "7" | 8%N => "8" | 9%N => "9" | 10%N => "a" | 11%N => "b"
  | 12%N => "c" | 13%N => "d" | 14%N => "e" | _ => "f"
  end%char.

(** How [repr] writes one character inside the quotes [quote]: the quote
    and the backslash are escaped, tab, newline and carriage return have
    their letters, the other control characters their code. *)
Definition escape (quote c : ascii) : string :=
  let n := N_of_ascii c in
  if Ascii.eqb c quote || Ascii.eqb c "\" then String "\" (String c EmptyString)
  else if Ascii.eqb c "009" then "\t"
  else if Ascii.eqb c "010" then "\n"
  else if Ascii.eqb c "013" then "\r"
  else if (n <? 32)%N || (n =? 127)%N
       then String "\" (String "x" (String (hex_digit (n / 16))
                                      (String (hex_digit (n mod 16)) EmptyString)))
  else String c EmptyString.

Fixpoint escape_all (quote : ascii) (s : string) : string :=
  match s with
  | EmptyString => EmptyString
  | String c s' => escape quote c +:+ escape_all quote s'
  end.

(** [repr(s)]: single quotes, unless the text has a single quote and no
    double quote in it.  Characters beyond ASCII are taken to be
    printable. *)
Definition repr (s : string) : string :=
  let quote := if contains s "'" && negb (contains s "034") then "034"%char else "'"%char in
  String quote (escape_all quote s +:+ String quote EmptyString).

End Str.

(** ** Paths ([pathlib.PurePosixPath]), kept as the string they print as *)

Module Path.

(** The components of a path: empty components and "." are dropped. *)
Definition parts (p : string) : list string :=
  filter (λ c, c ≠ "" ∧ c ≠ ".") (Str.split "/" p).

(** [p.name]: the final component, "" when there is none. *)
Definition name (p : string) : string := List.last (parts p) "".

(** [p.stem]: the final component without its last suffix.  A leading dot
    or a trailing dot does not start a suffix. *)
Definition stem (p : string) : string :=
  let n := name p in
  match Str.rfind "." n with
  | Some i =>
      if ((0 <? i) && (i <? String.length n - 1))%nat then Str.take i n else n
  | None => n
  end.

(** [a / b]: an absolute right operand replaces the left one. *)
Definition joinpath (a b : string) : string :=
  if Str.startswith b "/" then b
  else if Str.endswith a "/" then a +:+ b
  else a +:+ "/" +:+ b.

End Path.

(** ** Exceptions *)

Inductive exn_class :=
  | BaseException | SystemExit | KeyboardInterrupt
  | Exception | TypeError | ValueError | AttributeError | RuntimeError
  | ImportError | ModuleNotFoundError
  | OSError | FileNotFoundError.

Global Instance exn_class_eq_dec : EqDecision exn_class.
Proof. solve_decision. Defined.

(** The direct base class, [None] for the root. *)
Definition base_class (c : exn_class) : option exn_class :=
  match c with
  | BaseException => None
  | SystemExit | KeyboardInterrupt | Exception => Some BaseException
  | TypeError | ValueError | AttributeError | RuntimeError
  | ImportError | OSError => Some Exception
  | ModuleNotFoundError => Some ImportError
  | FileNotFoundError => Some OSError
  end.

(** [issubclass(c, b)]; the hierarchy is three levels deep. *)
Fixpoint issubclass_fuel (n : nat) (c b : exn_class) : bool :=
  if decide (c = b) then true
  else match n with
       | O => false
       | S n' => match base_class c with
                 | Some c' => issubclass_fuel n' c' b
                 | None => false
                 end
       end.

Definition issubclass : exn_class → exn_class → bool := issubclass_fuel 3.

Definition class_name (c : exn_class) : string :=
  match c with
  | BaseException => "BaseException" | SystemExit => "SystemExit"
  | KeyboardInterrupt => "KeyboardInterrupt" | Exception => "Exception"
  | TypeError => "TypeError" | ValueError => "ValueError"
  | AttributeError => "AttributeError" | RuntimeError => "RuntimeError"
  | ImportError => "ImportError" | ModuleNotFoundError => "ModuleNotFoundError"
  | OSError => "OSError" | FileNotFoundError => "FileNotFoundError"
  end.

Record exn := Exn { exn_cls : exn_class; exn_msg : string }.

(** [isinstance(e, c)], what an [except c] clause tests *)
Definition isinstance (e : exn) (c : exn_class) : bool := issubclass (exn_cls e) c.

Definition repr_exn (e : exn) : string :=
  class_name (exn_cls e) +:+ "(" +:+ Str.repr (exn_msg e) +:+ ")".

(** The result of evaluating an expression or running a statement. *)
Inductive outcome (A : Type) :=
  | Return (a : A)
  | Raise (e : exn).
Arguments Return {A} a.
Arguments Raise {A} e.

(** ** Values *)

(** The objects that the runner stores in a module namespace or gets back
    from an entry point.  A function is given by the number of positional
    arguments it accepts and by its result; every argument this program ever
    passes is a list of strings.  Any other object is described by what
    [str()] and [int()] make of it. *)
#[warnings="-register-all"]
Inductive pyvalue :=
  | PyNone
  | PyBool (b : bool)
  | PyInt (z : Z)
  | PyFunc (min_args : nat) (max_args : option nat)
           (body : list (list string) → outcome pyvalue)
  | PyObject (as_str : string) (as_int : outcome Z).

(** A [str] object that is not an integer literal. *)
Definition PyStr (s : string) : pyvalue :=
  PyObject s (Raise (Exn ValueError ("invalid literal for int() with base 10: " +:+ Str.repr s))).

(** [str(v)] *)
Definition py_str (v : pyvalue) : string :=
  match v with
  | PyNone => "None"
  | PyBool b => if b then "True" else "False"
  | PyInt z => pretty z
  | PyFunc _ _ _ => "<function>"
  | PyObject s _ => s
  end.

Definition type_name (v : pyvalue) : string :=
  match v with
  | PyNone => "NoneType" | PyBool _ => "bool" | PyInt _ => "int"
  | PyFunc _ _ _ => "function" | PyObject _ _ => "object"
  end.

(** [int(v)] *)
Definition py_int (v : pyvalue) : outcome Z :=
  match v with
  | PyInt z => Return z
  | PyBool b => Return (if b then 1 else 0)
  | PyNone =>
      Raise (Exn TypeError "int() argument must be a string, a bytes-like object or a real number, not 'NoneType'")
  | PyFunc _ _ _ =>
      Raise (Exn TypeError "int() argument must be a string, a bytes-like object or a real number, not 'function'")
  | PyObject _ r => r
  end.

(** Calling [f] on [args]: the arity is checked before the body runs. *)
Definition py_call (f : pyvalue) (args : list (list string)) : outcome pyvalue :=
  match f with
  | PyFunc lo hi body =>
      let n := length args in
      if ((lo <=? n) && (match hi with Some h => n <=? h | None => true end))%nat
      then body args
      else Raise (Exn TypeError ("main() takes " +:+ pretty lo +:+ " positional arguments but "
                                 +:+ pretty n +:+ " were given"))
  | v => Raise (Exn TypeError (Str.repr (type_name v) +:+ " object is not callable"))
  end.

(** ** Modules, specs, finders and the interpreter state *)

(** A module namespace: the attributes set by executing the module. *)
Abbreviation namespace := (gmap string pyvalue).

(** What running a module's code does.  The code sees [sys.modules] as it is
    when execution starts and the namespace of its own module; it leaves the
    namespace as far as it got, with the exception that stopped it if any.
    Code that prints, imports other modules or rebinds entries of
    [sys.modules] is outside this type: nothing below is stated about what
    such code leaves behind. *)
Definition module_body : Type := gmap string nat → namespace → namespace * option exn.

(** [importlib.machinery.ModuleSpec].  [spec_loader] is the loader's
    [exec_module]; it is [None] for a namespace package. *)
Record ModuleSpec := {
  spec_name : string;
  spec_origin : option string;
  spec_loader : option module_body;
}.

(** A module object.  [__name__], [__file__] and [__spec__] are record
    fields; the rest of [__dict__] is [mod_dict]. *)
Record module_obj := {
  mod_name : string;
  mod_file : option string;
  mod_spec : option ModuleSpec;
  mod_dict : namespace;
}.

Definition with_dict (m : module_obj) (d : namespace) : module_obj :=
  {| mod_name := mod_name m; mod_file := mod_file m; mod_spec := mod_spec m; mod_dict := d |}.

(** [module.__spec__ = None] *)
Definition without_spec (m : module_obj) : module_obj :=
  {| mod_name := mod_name m; mod_file := mod_file m; mod_spec := None;
     mod_dict := mod_dict m |}.

(** The name under which [importlib.reload] looks a module up:
    [module.__spec__.name], or [module.__name__] without a spec. *)
Definition name_of_unit (m : module_obj) : string :=
  match mod_spec m with Some s => spec_name s | None => mod_name m end.

Definition with_spec (m : module_obj) (s : ModuleSpec) : module_obj :=
  {| mod_name := mod_name m; mod_file := spec_origin s; mod_spec := Some s;
     mod_dict := mod_dict m |}.

(** What a meta-path finder answers: a spec, [None], or an exception. *)
Inductive find_result :=
  | Matched (s : ModuleSpec)
  | NoMatch
  | FindError (e : exn).

Record finder := {
  finder_type : string;                 (* type(f).__name__ *)
  find_spec : string → find_result;
}.

(** The state of the interpreter.  Module objects live in [heap] and are
    referred to by address, so that two references can be compared with
    [is].  The last three fields record what happened: the lines printed,
    the modules whose code ran and the calls made to an entry point. *)
Record interp := {
  sys_modules : gmap string nat;
  heap : gmap nat module_obj;
  next_id : nat;
  sys_meta_path : list finder;
  stdout : list string;
  executed : list nat;
  entry_calls : list (list (list string));
}.

Definition set_sys_modules (f : gmap string nat → gmap string nat) (st : interp) : interp :=
  {| sys_modules := f (sys_modules st); heap := heap st; next_id := next_id st;
     sys_meta_path := sys_meta_path st; stdout := stdout st; executed := executed st;
     entry_calls := entry_calls st |}.

Definition set_heap (f : gmap nat module_obj → gmap nat module_obj) (st : interp) : interp :=
  {| sys_modules := sys_modules st; heap := f (heap st); next_id := next_id st;
     sys_meta_path := sys_meta_path st; stdout := stdout st; executed := executed st;
     entry_calls := entry_calls st |}.

Definition set_next_id (n : nat) (st : interp) : interp :=
  {| sys_modules := sys_modules st; heap := heap st; next_id := n;
     sys_meta_path := sys_meta_path st; stdout := stdout st; executed := executed st;
     entry_calls := entry_calls st |}.

Definition set_sys_meta_path (f : list finder → list finder) (st : interp) : interp :=
  {| sys_modules := sys_modules st; heap := heap st; next_id := next_id st;
     sys_meta_path := f (sys_meta_path st); stdout := stdout st; executed := executed st;
     entry_calls := entry_calls st |}.

Definition set_stdout (f : list string → list string) (st : interp) : interp :=
  {| sys_modules := sys_modules st; heap := heap st; next_id := next_id st;
     sys_meta_path := sys_meta_path st; stdout := f (stdout st); executed := executed st;
     entry_calls := entry_calls st |}.

Definition set_executed (f : list nat → list nat) (st : interp) : interp :=
  {| sys_modules := sys_modules st; heap := heap st; next_id := next_id st;
     sys_meta_path := sys_meta_path st; stdout := stdout st; executed := f (executed st);
     entry_calls := entry_calls st |}.

Definition set_entry_calls (f : list (list (list string)) → list (list (list string)))
    (st : interp) : interp :=
  {| sys_modules := sys_modules st; heap := heap st; next_id := next_id st;
     sys_meta_path := sys_meta_path st; stdout := stdout st; executed := executed st;
     entry_calls := f (entry_calls st) |}.

(** ** The monad of statements: state, and exceptions that keep the state *)

Definition Py (A : Type) : Type := interp → interp * outcome A.

Definition ret {A} (a : A) : Py A := λ st, (st, Return a).

Definition raise {A} (c : exn_class) (msg : string) : Py A := λ st, (st, Raise (Exn c msg)).

Definition reraise {A} (e : exn) : Py A := λ st, (st, Raise e).

Definition bind {A B} (m : Py A) (k : A → Py B) : Py B :=
  λ st, match m st with
        | (st', Return a) => k a st'
        | (st', Raise e) => (st', Raise e)
        end.

(** [try: m  except c as e: h e] *)
Definition try_except {A} (m : Py A) (c : exn_class) (h : exn → Py A) : Py A :=
  λ st, match m st with
        | (st', Return a) => (st', Return a)
        | (st', Raise e) => if isinstance e c then h e st' else (st', Raise e)
        end.

Definition lift {A} (o : outcome A) : Py A := λ st, (st, o).

Definition get {A} (f : interp → A) : Py A := λ st, (st, Return (f st)).

Definition modify (f : interp → interp) : Py unit := λ st, (f st, Return tt).

Declare Scope py_scope.
Delimit Scope py_scope with py.
Notation "'let*' x ':=' m 'in' k" := (bind m (λ x, k))
  (at level 10, x name, m at level 100, k at level 200, only parsing) : py_scope.
Notation "m >> k" := (bind m (λ _, k))
  (at level 100, right associativity, only parsing) : py_scope.
Local Open Scope py_scope.

(** [for x in l: body x] *)
Definition for_each {A} (l : list A) (body : A → Py unit) : Py unit :=
  foldr (λ x k, body x >> k) (ret tt) l.

(** [print(line)] *)
Definition print (line : string) : Py unit := modify (set_stdout (λ out, out ++ [line])).

(** ** The part of [importlib] that the runner calls

    Names are taken whole: the import of the parent package of a dotted
    name and the per-module import locks are left out, so what is proved
    about a load or a lookup by name is proved for names without a dot. *)

Module Importlib.

(** [importlib._bootstrap._find_spec]: the finders are asked front to
    back; the first spec wins, [None] passes on to the next finder, an
    exception ends the search. *)
Fixpoint find_spec_chain (finders : list finder) (name : string) : find_result :=
  match finders with
  | [] => NoMatch
  | f :: rest =>
      match find_spec f name with
      | NoMatch => find_spec_chain rest name
      | r => r
      end
  end.

(** [importlib.util.module_from_spec]: a new module object with an empty
    namespace and the import attributes of the spec. *)
Definition module_from_spec (spec : ModuleSpec) : Py nat :=
  λ st,
    let id := next_id st in
    let m := {| mod_name := spec_name spec; mod_file := spec_origin spec;
                mod_spec := Some spec; mod_dict := ∅ |} in
    (set_next_id (S id) (set_heap (insert id m) st), Return id).

(** [loader.exec_module(module)] *)
Definition exec_module (body : module_body) (id : nat) : Py unit :=
  λ st,
    match heap st !! id with
    | None => (st, Raise (Exn RuntimeError "dangling module reference"))
    | Some m =>
        let '(d, r) := body (sys_modules st) (mod_dict m) in
        let st' := set_executed (λ l, l ++ [id]) (set_heap (insert id (with_dict m d)) st) in
        (st', match r with None => Return tt | Some e => Raise e end)
    end.

(** [sys.modules[name]], a [KeyError] when absent *)
Definition sys_modules_get (name : string) : Py nat :=
  λ st, match sys_modules st !! name with
        | Some id => (st, Return id)
        | None => (st, Raise (Exn RuntimeError ("KeyError: " +:+ Str.repr name)))
        end.

(** [importlib._bootstrap._load_unlocked]: the module enters
    [sys.modules] before its code runs and is taken out again if the code
    raises. *)
Definition load_unlocked (spec : ModuleSpec) : Py nat :=
  let* id := module_from_spec spec in
  modify (set_sys_modules (insert (spec_name spec) id)) >>
  match spec_loader spec with
  | None => ret tt
  | Some body =>
      λ st, match exec_module body id st with
            | (st', Return _) => (st', Return tt)
            | (st', Raise e) => (set_sys_modules (delete (spec_name spec)) st', Raise e)
            end
  end >>
  sys_modules_get (spec_name spec).

(** [importlib.import_module(name)], called without a package: a relative
    name is a [TypeError], the empty name a [ValueError]; what follows is
    the import of a name without a dot. *)
Definition import_module (name : string) : Py nat :=
  λ st,
    if Str.startswith name "." then
      (st, Raise (Exn TypeError
                    ("the 'package' argument is required to perform a relative import for "
                     +:+ Str.repr name)))
    else if decide (name = "") then (st, Raise (Exn ValueError "Empty module name"))
    else
      match sys_modules st !! name with
      | Some id => (st, Return id)
      | None =>
          match find_spec_chain (sys_meta_path st) name with
          | FindError e => (st, Raise e)
          | NoMatch =>
              (st, Raise (Exn ModuleNotFoundError ("No module named " +:+ Str.repr name)))
          | Matched spec => load_unlocked spec st
          end
      end.

(** [importlib.util.find_spec(name)], for a name without a dot *)
Definition util_find_spec (name : string) : Py (option ModuleSpec) :=
  λ st,
    match sys_modules st !! name with
    | Some id =>
        match heap st !! id ≫= mod_spec with
        | Some spec => (st, Return (Some spec))
        | None => (st, Raise (Exn ValueError (name +:+ ".__spec__ is None")))
        end
    | None =>
        match find_spec_chain (sys_meta_path st) name with
        | FindError e => (st, Raise e)
        | NoMatch => (st, Return None)
        | Matched spec => (st, Return (Some spec))
        end
    end.

(** [importlib.util.spec_from_loader(name, loader)] for a loader without
    a file *)
Definition spec_from_loader (name : string) (loader : module_body) : ModuleSpec :=
  {| spec_name := name; spec_origin := None; spec_loader := Some loader |}.

(** [importlib.reload(module)]: the spec is looked up again through the
    finders and assigned to [module.__spec__], also when the finders have
    none, in which case the assignment leaves [None] there before
    [ModuleNotFoundError] is raised; the code then runs in the namespace
    the module already has, and the result is whatever [sys.modules] holds
    under the name. *)
Definition reload (id : nat) : Py nat :=
  λ st,
    match heap st !! id with
    | None => (st, Raise (Exn TypeError "reload() argument must be a module"))
    | Some m =>
        let name := name_of_unit m in
        if decide (sys_modules st !! name = Some id) then
          match find_spec_chain (sys_meta_path st) name with
          | FindError e => (st, Raise e)
          | NoMatch =>
              (set_heap (insert id (without_spec m)) st,
               Raise (Exn ModuleNotFoundError
                        ("spec not found for the module " +:+ Str.repr name)))
          | Matched spec =>
              (modify (set_heap (insert id (with_spec m spec))) >>
               match spec_loader spec with
               | None => ret tt
               | Some body => exec_module body id
               end >>
               sys_modules_get name) st
          end
        else (st, Raise (Exn ImportError ("module " +:+ name +:+ " not in sys.modules")))
    end.

End Importlib.

(** ** The file system, as the runner reads it *)

Record filesystem := {
  (** [Path(p).resolve()]: the absolute, normalised path *)
  fs_resolve : string → string;
  (** [Path(p).exists()] *)
  fs_exists : string → bool;
  (** The names of the entries of a directory, in the order the operating
      system yields them; empty for anything that is not a directory. *)
  fs_scandir : string → list string;
  (** [importlib.util.spec_from_file_location]: the loader picked from the
      suffix of the file, given as what executing the file does; [None]
      when no loader handles the suffix. *)
  fs_loader : string → option module_body;
}.

(** ** [task_runner.py] *)

Record PluginInfo := { name : string; origin : string }.

(** The order of [sorted] on paths of one directory: by file name, code
    point by code point. *)
Definition name_le (a b : string) : Prop := String.leb a b.

Global Instance name_le_dec a b : Decision (name_le a b).
Proof. unfold name_le. apply _. Defined.

(** The command line after [argparse]. *)
Record run_args := {
  target : string;
  reload : bool;
  plugin_args : list string;
}.

Record cli_args := {
  plugin_dir : string;
  list_flag : bool;              (* --list *)
  where_ : option string;        (* --where MODULE *)
  meta_path : bool;              (* --meta-path *)
  cmd : option run_args;         (* the run subcommand *)
}.

Definition PLUGIN_DIR_DEFAULT : string := "./plugins".

(** What [parser.print_help()] prints, shortened to its first line. *)
Definition help_text : string :=
  "usage: task_runner.py [-h] [--plugin-dir PLUGIN_DIR] [--list] [--where MODULE] [--meta-path] {run} ...".

Section Runner.

Variable fs : filesystem.

Definition find_spec_origin (module_name : string) : Py string :=
  let* spec := Importlib.util_find_spec module_name in
  match spec with
  | None => ret "NOT FOUND"
  | Some s => ret (default "None" (spec_origin s))
  end.

Definition print_meta_path : Py unit :=
  print "[sys.meta_path] import finders order:" >>
  let* finders := get sys_meta_path in
  for_each finders (λ f, print (" - " +:+ finder_type f)).

Definition list_plugins (plugin_dir : string) : list PluginInfo :=
  let plugin_dir := fs_resolve fs plugin_dir in
  if negb (fs_exists fs plugin_dir) then []
  else
    let found := filter (λ n, Str.endswith n ".py" = true) (fs_scandir fs plugin_dir) in
    foldr (λ n out,
             if Str.startswith n "_" then out
             else {| name := Path.stem n; origin := Path.joinpath plugin_dir n |} :: out)
          [] (merge_sort name_le found).

Definition import_by_name (module_name : string) : Py nat :=
  Importlib.import_module module_name.

Definition import_from_file (module_name : string) (file_path : string) : Py nat :=
  let file_path := fs_resolve fs file_path in
  if negb (fs_exists fs file_path) then
    raise FileNotFoundError ("Plugin file not found: " +:+ file_path)
  else
    match fs_loader fs file_path with
    | None => raise ImportError ("Could not create spec for: " +:+ file_path)
    | Some body =>
        let spec := {| spec_name := module_name; spec_origin := Some file_path;
                       spec_loader := Some body |} in
        let* module := Importlib.module_from_spec spec in
        modify (set_sys_modules (insert module_name module)) >>
        Importlib.exec_module body module >>
        ret module
    end.

Definition load_plugin (target : string) (plugin_dir : string) : Py (nat * string) :=
  let plugin_dir := fs_resolve fs plugin_dir in
  if Str.startswith target "path:" then
    let path_str := Str.drop (String.length "path:") target in
    let p := path_str in
    let mod_name := "__plugin__" +:+ Path.stem p in
    let* m := import_from_file mod_name p in
    ret (m, "file:" +:+ fs_resolve fs p)
  else if Str.startswith target "name:" then
    let name := Str.drop (String.length "name:") target in
    let* m := import_by_name name in
    ret (m, "name:" +:+ name)
  else
    let p := Path.joinpath plugin_dir (target +:+ ".py") in
    let mod_name := "__plugin__" +:+ target in
    let* m := import_from_file mod_name p in
    ret (m, "plugin:" +:+ fs_resolve fs p).

(** [hasattr(module, attr)] and [getattr(module, attr)] *)
Definition hasattr (st : interp) (module : nat) (attr : string) : bool :=
  bool_decide (is_Some (heap st !! module ≫= λ m, mod_dict m !! attr)).

Definition getattr (module : nat) (attr : string) : Py pyvalue :=
  λ st, match heap st !! module ≫= λ m, mod_dict m !! attr with
        | Some v => (st, Return v)
        | None => (st, Raise (Exn AttributeError
                                ("module has no attribute " +:+ Str.repr attr)))
        end.

(** One call of the entry point, recorded in [entry_calls]. *)
Definition call (fn : pyvalue) (args : list (list string)) : Py pyvalue :=
  modify (set_entry_calls (λ l, l ++ [args])) >>
  lift (py_call fn args).

Definition call_plugin (module : nat) (argv : list string) : Py Z :=
  let* has_main := get (λ st, hasattr st module "main") in
  if negb has_main then
    raise AttributeError "Plugin must define function main(argv) or main()"
  else
    let* fn := getattr module "main" in
    try_except
      (let* r := call fn [argv] in lift (py_int r))
      TypeError
      (λ _, let* r := call fn [] in lift (py_int r)).

(** The line [module.__file__: ...] of the run report *)
Definition file_of (st : interp) (module : nat) : string :=
  default "builtin" (heap st !! module ≫= mod_file).

Definition name_of (st : interp) (module : nat) : string :=
  default "" (mod_name <$> heap st !! module).

(** [main], block by block: the options [--meta-path] and [--where], the
    listing, and the [run] subcommand. *)
Definition main_options (args : cli_args) : Py unit :=
  (if meta_path args then print_meta_path else ret tt) >>
  match where_ args with
  | Some w =>
      if decide (w = "") then ret tt
      else
        let* origin := find_spec_origin w in
        print ("[where] " +:+ w +:+ " -> " +:+ origin)
  | None => ret tt
  end.

Definition main_list (plugin_dir : string) : Py Z :=
  let plugs := list_plugins plugin_dir in
  match plugs with
  | [] =>
      print ("[list] no plugins found in " +:+ fs_resolve fs plugin_dir) >>
      print "[list] create ./plugins/hello.py to test" >>
      ret 0
  | _ =>
      print ("[list] plugins in " +:+ fs_resolve fs plugin_dir +:+ ":") >>
      for_each plugs (λ pi, print (" - " +:+ name pi +:+ " (" +:+ origin pi +:+ ")")) >>
      ret 0
  end.

Definition main_run (plugin_dir : string) (run : run_args) : Py Z :=
  let* loaded := load_plugin (target run) plugin_dir in
  let '(module, label) := loaded in
  let* reloaded :=
    (if reload run then
       try_except
         (let* module' := Importlib.reload module in
          ret (module', label +:+ " (reloaded)"))
         Exception
         (λ e, print ("[reload] failed, continuing without reload: " +:+ repr_exn e) >>
               ret (module, label))
     else ret (module, label)) in
  let '(module, label) := reloaded in
  print ("[run] loaded: " +:+ label) >>
  let* mname := get (λ st, name_of st module) in
  print ("[run] module.__name__: " +:+ mname) >>
  let* mfile := get (λ st, file_of st module) in
  print ("[run] module.__file__: " +:+ mfile) >>
  (* separate runner args from plugin args using -- *)
  let plugin_argv := filter (λ a, a ≠ "--") (plugin_args run) in
  call_plugin module plugin_argv.

Definition main (args : cli_args) : Py Z :=
  let plugin_dir := plugin_dir args in
  main_options args >>
  if list_flag args then main_list plugin_dir
  else
    match cmd args with
    | Some run => main_run plugin_dir run
    | None => print help_text >> ret 0
    end.

End Runner.

(** ** [import_hook_demo.py] *)

Module Demo.

(** [DemoFinder.exec_module] *)
Definition exec_module : module_body :=
  λ _ d,
    let d := <["VALUE" := PyInt 123]> d in
    let d := <["hello" := PyFunc 0 (Some 0%nat) (λ _, Return (PyStr "hook works"))]> d in
    let d := <["__doc__" := PyStr "Synthetic module created at import time by DemoFinder"]> d in
    (d, None).

(** [DemoFinder.find_spec]; [create_module] returns [None], which asks for
    the default module creation of [module_from_spec]. *)
Definition DemoFinder : finder :=
  {| finder_type := "DemoFinder";
     find_spec := λ fullname,
       if decide (fullname = "demo_hook")
       then Matched (Importlib.spec_from_loader fullname exec_module)
       else NoMatch |}.

Definition in_sys_modules (n : string) : Py pyvalue :=
  get (λ st, PyBool (bool_decide (is_Some (sys_modules st !! n)))).

Definition main : Py Z :=
  let* before := in_sys_modules "demo_hook" in
  print ("[before] demo_hook in sys.modules: " +:+ py_str before) >>
  print "[install] inserting DemoFinder at sys.meta_path[0]" >>
  modify (set_sys_meta_path (λ l, DemoFinder :: l)) >>
  print "[meta_path] current finders order:" >>
  let* finders := get sys_meta_path in
  for_each (take 5 finders) (λ f, print (" - " +:+ finder_type f)) >>
  print "[import] importing demo_hook" >>
  let* demo_hook := Importlib.import_module "demo_hook" in
  let* after := in_sys_modules "demo_hook" in
  print ("[after] demo_hook in sys.modules: " +:+ py_str after) >>
  let* value := getattr demo_hook "VALUE" in
  print ("[demo_hook] VALUE = " +:+ py_str value) >>
  let* hello := getattr demo_hook "hello" in
  let* greeting := lift (py_call hello []) in
  print ("[demo_hook] hello() = " +:+ py_str greeting) >>
  let* doc := getattr demo_hook "__doc__" in
  print ("[demo_hook] __doc__ = " +:+ py_str doc) >>
  ret 0.

End Demo.

(** ** The parser of targets, in the words of the specification

    The runner has no parser of its own: [load_plugin] tests the prefixes
    and loads in one go.  The three intents and their logical names are
    written down here as the specification names them, to be compared with
    [load_plugin]. *)

Inductive ResolutionIntent :=
  | ByRegisteredName (n : string)
  | ByExplicitPath (p : string)
  | ByConventionDir (baseDir shortName : string).

Definition parse (target baseDir : string) : ResolutionIntent :=
  if Str.startswith target "path:" then ByExplicitPath (Str.drop 5 target)
  else if Str.startswith target "name:" then ByRegisteredName (Str.drop 5 target)
  else ByConventionDir baseDir target.

(** The file an intent stands for, if it stands for a file. *)
Definition intent_file (fs : filesystem) (i : ResolutionIntent) : option string :=
  match i with
  | ByRegisteredName _ => None
  | ByExplicitPath p => Some p
  | ByConventionDir baseDir t => Some (Path.joinpath (fs_resolve fs baseDir) (t +:+ ".py"))
  end.

(** The key under which an intent is cached. *)
Definition logical_name (i : ResolutionIntent) : string :=
  match i with
  | ByRegisteredName n => n
  | ByExplicitPath p => "__plugin__" +:+ Path.stem p
  | ByConventionDir _ t => "__plugin__" +:+ t
  end.

Definition origin_label (fs : filesystem) (i : ResolutionIntent) : string :=
  match i with
  | ByRegisteredName n => "name:" +:+ n
  | ByExplicitPath p => "file:" +:+ fs_resolve fs p
  | ByConventionDir baseDir t =>
      "plugin:" +:+ fs_resolve fs (Path.joinpath (fs_resolve fs baseDir) (t +:+ ".py"))
  end.

(** Loading an intent: by name through the finders, by file otherwise. *)
Definition load_intent (fs : filesystem) (i : ResolutionIntent) : Py (nat * string) :=
  let* m := match intent_file fs i with
            | None => import_by_name (logical_name i)
            | Some p => import_from_file fs (logical_name i) p
            end in
  ret (m, origin_label fs i).

(** A listed file: a source file whose name is not private. *)
Definition listed (n : string) : Prop :=
  Str.endswith n ".py" = true ∧ Str.startswith n "_" = false.

Global Instance listed_dec n : Decision (listed n).
Proof. unfold listed. apply _. Defined.

(** The listing entry of the file [n] of the directory [dir]. *)
Definition info_of (dir n : string) : PluginInfo :=
  {| name := Path.stem n; origin := Path.joinpath dir n |}.

(** ** Calls made by a computation *)

(** [quiet m]: running [m] calls no entry point. *)
Definition quiet {A} (m : Py A) : Prop := ∀ st, entry_calls (m st).1 = entry_calls st.

(** [emits P m]: the entry-point calls that [m] makes all satisfy [P]. *)
Definition emits {A} (P : list (list string) → Prop) (m : Py A) : Prop :=
  ∀ st, ∃ calls, entry_calls (m st).1 = entry_calls st ++ calls ∧ Forall P calls.

(** [prints_only m]: all that running [m] does to the interpreter is to
    print lines. *)
Definition prints_only {A} (m : Py A) : Prop :=
  ∀ st, ∃ lines, (m st).1 = set_stdout (λ out, out ++ lines) st.

(** What [--list] prints for a listing. *)
Definition list_lines (dir : string) (plugs : list PluginInfo) : list string :=
  match plugs with
  | [] => ["[list] no plugins found in " +:+ dir; "[list] create ./plugins/hello.py to test"]
  | _ => ("[list] plugins in " +:+ dir +:+ ":")
         :: ((λ pi, " - " +:+ name pi +:+ " (" +:+ origin pi +:+ ")") <$> plugs)
  end.

(** What the run report prints for the unit [module] of the state [st]. *)
Definition run_lines (st : interp) (module : nat) (label : string) : list string :=
  ["[run] loaded: " +:+ label;
   "[run] module.__name__: " +:+ name_of st module;
   "[run] module.__file__: " +:+ file_of st module].

(** ** A small world to run the programs in *)

Module World.

(** A plugin with [def main(argv): return 0]. *)
Definition hello_body : module_body :=
  λ _ d, (<["main" := PyFunc 1 (Some 1%nat) (λ _, Return (PyInt 0))]> d, None).

(** A plugin that binds [READY = True] and then fails. *)
Definition broken_body : module_body :=
  λ _ d, (<["READY" := PyBool true]> d, Some (Exn ValueError "bad configuration")).

(** A module without an entry point. *)
Definition json_body : module_body :=
  λ _ d, (<["loads" := PyFunc 1 (Some 1%nat) (λ _, Return PyNone)]> d, None).

(** A module that loads once and asks the interpreter to exit when its
    code runs again:
    [if "LOADED" in globals(): sys.exit(3)], then [LOADED = True] and
    [def main(argv): return 0]. *)
Definition once_body : module_body :=
  λ _ d,
    match d !! "LOADED" with
    | Some _ => (d, Some (Exn SystemExit "3"))
    | None =>
        (<["main" := PyFunc 1 (Some 1%nat) (λ _, Return (PyInt 0))]>
           (<["LOADED" := PyBool true]> d), None)
    end.

(** A module that fails with an ordinary exception when its code runs
    again. *)
Definition flaky_body : module_body :=
  λ _ d,
    match d !! "LOADED" with
    | Some _ => (d, Some (Exn RuntimeError "stale state"))
    | None =>
        (<["main" := PyFunc 1 (Some 1%nat) (λ _, Return (PyInt 7))]>
           (<["LOADED" := PyBool true]> d), None)
    end.

(** [def main(argv=None)] whose one-argument path adds a number to a
    string and whose zero-argument path returns 0. *)
Definition picky_main : pyvalue :=
  PyFunc 0 (Some 1%nat)
    (λ args, match args with
             | [] => Return (PyInt 0)
             | _ => Raise (Exn TypeError "unsupported operand type(s) for +: 'int' and 'str'")
             end).

Definition picky_body : module_body := λ _ d, (<["main" := picky_main]> d, None).

(** [def main(): return 4], and a plugin whose [main] is the number 5. *)
Definition noargs_main : pyvalue := PyFunc 0 (Some 0%nat) (λ _, Return (PyInt 4)).

Definition noargs_body : module_body := λ _ d, (<["main" := noargs_main]> d, None).

Definition number_body : module_body := λ _ d, (<["main" := PyInt 5]> d, None).

(** [def main(argv): raise ValueError("no such task")] *)
Definition failing_main : pyvalue :=
  PyFunc 1 (Some 1%nat) (λ _, Raise (Exn ValueError "no such task")).

Definition failing_body : module_body := λ _ d, (<["main" := failing_main]> d, None).

(** A variadic [main] that returns nothing. *)
Definition quiet_main : pyvalue := PyFunc 0 None (λ _, Return PyNone).

Definition quiet_body : module_body := λ _ d, (<["main" := quiet_main]> d, None).

Definition resolve (p : string) : string :=
  if Str.startswith p "/" then p
  else if Str.startswith p "./" then "/work/" +:+ Str.drop 2 p
  else "/work/" +:+ p.

Definition files : list (string * module_body) :=
  [("/work/plugins/hello.py", hello_body);
   ("/work/other/hello.py", json_body);
   ("/work/plugins/broken.py", broken_body);
   ("/work/plugins/picky.py", picky_body);
   ("/work/plugins/quiet.py", quiet_body)].

Definition fs : filesystem :=
  {| fs_resolve := resolve;
     fs_exists := λ p, bool_decide (p ∈ "/work/plugins" :: "/work/notes.txt" :: files.*1);
     fs_scandir := λ p,
       if decide (p = "/work/plugins")
       then ["b.py"; "_private.py"; "notes.txt"; "a.py"]
       else [];
     fs_loader := λ p,
       if Str.endswith p ".py" then (list_to_map files : gmap string module_body) !! p
       else None |}.

(** The finder of installed modules. *)
Definition PathFinder : finder :=
  {| finder_type := "PathFinder";
     find_spec := λ n,
       match (list_to_map [("json", json_body); ("once", once_body); ("flaky", flaky_body)]
                : gmap string module_body) !! n with
       | Some body =>
           Matched {| spec_name := n; spec_origin := Some ("/usr/lib/python3/" +:+ n +:+ ".py");
                      spec_loader := Some body |}
       | None => NoMatch
       end |}.

(** The interpreter at start-up. *)
Definition st0 : interp :=
  {| sys_modules := ∅; heap := ∅; next_id := 0; sys_meta_path := [PathFinder];
     stdout := []; executed := []; entry_calls := [] |}.

(** The interpreter after [import json], and after the plugin hello has
    been loaded once. *)
Definition st_json : interp := (import_by_name "json" st0).1.

Definition st_hello : interp := (load_plugin fs "hello" "./plugins" st0).1.

(** The interpreter after flaky has been loaded by name, and after the
    reload of it that fails. *)
Definition st_flaky : interp := (load_plugin fs "name:flaky" "./plugins" st0).1.

Definition st_flaky_reloaded : interp := (Importlib.reload 0 st_flaky).1.

Definition st_picky : interp := (load_plugin fs "picky" "./plugins" st0).1.

Definition st_quiet : interp := (load_plugin fs "quiet" "./plugins" st0).1.

(** A finder of one module whose code fails, in front of [PathFinder]. *)
Definition BrokenFinder : finder :=
  {| finder_type := "BrokenFinder";
     find_spec := λ n,
       if decide (n = "broken")
       then Matched {| spec_name := n; spec_origin := None; spec_loader := Some broken_body |}
       else NoMatch |}.

Definition st_broken_finder : interp := set_sys_meta_path (cons BrokenFinder) st0.

(** A larger plugin directory. *)
Definition more_files : list (string * module_body) :=
  files ++ [("/work/plugins/noargs.py", noargs_body);
            ("/work/plugins/number.py", number_body);
            ("/work/plugins/failing.py", failing_body)].

Definition fs_more : filesystem :=
  {| fs_resolve := resolve;
     fs_exists := λ p, bool_decide (p ∈ "/work/plugins" :: "/work/notes.txt" :: more_files.*1);
     fs_scandir := fs_scandir fs;
     fs_loader := λ p,
       if Str.endswith p ".py" then (list_to_map more_files : gmap string module_body) !! p
       else None |}.

Definition st_noargs : interp := (load_plugin fs_more "noargs" "./plugins" st0).1.

Definition st_number : interp := (load_plugin fs_more "number" "./plugins" st0).1.

Definition st_failing : interp := (load_plugin fs_more "failing" "./plugins" st0).1.

(** The same files, with the directory read in another order. *)
Definition fs_shuffled : filesystem :=
  {| fs_resolve := resolve;
     fs_exists := fs_exists fs;
     fs_scandir := λ p, reverse (fs_scandir fs p);
     fs_loader := fs_loader fs |}.

Definition run (tgt : string) (rl : bool) (rest : list string) : cli_args :=
  {| plugin_dir := PLUGIN_DIR_DEFAULT; list_flag := false; where_ := None;
     meta_path := false;
     cmd := Some {| target := tgt; reload := rl; plugin_args := rest |} |}.

End World.

(** * Properties *)

(** ** The order on file names *)

Lemma ascii_compare_refl (a : ascii) : Ascii.compare a a = Eq.
Proof. unfold Ascii.compare. apply N.compare_refl. Qed.

Lemma string_compare_trans_le (a b c : string) :
  String.compare a b ≠ Gt → String.compare b c ≠ Gt → String.compare a c ≠ Gt.
Proof.
  revert b c. induction a as [|x a IH]; intros [|y b] [|z c]; simpl; try congruence.
  unfold Ascii.compare.
  destruct (N.compare_spec (N_of_ascii x) (N_of_ascii y)) as [Hxy|Hxy|Hxy];
    destruct (N.compare_spec (N_of_ascii y) (N_of_ascii z)) as [Hyz|Hyz|Hyz];
    try congruence; intros H1 H2.
  - rewrite Hxy, Hyz, N.compare_refl. eauto.
  - rewrite Hxy. apply N.compare_lt_iff in Hyz. by rewrite Hyz.
  - rewrite <- Hyz. apply N.compare_lt_iff in Hxy. by rewrite Hxy.
  - assert (Hxz : (N_of_ascii x < N_of_ascii z)%N) by lia.
    apply N.compare_lt_iff in Hxz. by rewrite Hxz.
Qed.

Lemma name_le_iff (a b : string) : name_le a b ↔ String.compare a b ≠ Gt.
Proof.
  unfold name_le, String.leb. destruct (String.compare a b); simpl; split; try done.
Qed.

Global Instance name_le_trans : Transitive name_le.
Proof. intros a b c. rewrite !name_le_iff. apply string_compare_trans_le. Qed.

Global Instance name_le_total : Total name_le.
Proof.
  intros a b. unfold name_le.
  destruct (String.leb_total a b) as [H|H]; rewrite H; [left|right]; done.
Qed.

Global Instance name_le_antisymm : AntiSymm (=) name_le.
Proof.
  intros a b Hab Hba. unfold name_le in *.
  apply String.leb_antisym; by apply Is_true_true.
Qed.

(** ** Running a computation on a given state *)

Lemma run_eq {A} (x : interp * outcome A) (o : outcome A) : x.2 = o → x = (x.1, o).
Proof. destruct x. simpl. by intros ->. Qed.

Lemma bind_Return {A B} (m : Py A) (k : A → Py B) (st st' : interp) (a : A) :
  m st = (st', Return a) → bind m k st = k a st'.
Proof. intros H. unfold bind. by rewrite H. Qed.

Lemma bind_Raise {A B} (m : Py A) (k : A → Py B) (st st' : interp) (e : exn) :
  m st = (st', Raise e) → bind m k st = (st', Raise e).
Proof. intros H. unfold bind. by rewrite H. Qed.

Lemma try_except_caught {A} (m : Py A) (c : exn_class) (h : exn → Py A)
    (st st' : interp) (e : exn) :
  m st = (st', Raise e) → isinstance e c = true → try_except m c h st = h e st'.
Proof. intros H Hc. unfold try_except. by rewrite H, Hc. Qed.

Lemma try_except_uncaught {A} (m : Py A) (c : exn_class) (h : exn → Py A)
    (st st' : interp) (e : exn) :
  m st = (st', Raise e) → isinstance e c = false → try_except m c h st = (st', Raise e).
Proof. intros H Hc. unfold try_except. by rewrite H, Hc. Qed.

(** The finder of [World] answers with a spec of the name it was asked. *)
Lemma PathFinder_named (n : string) (spec : ModuleSpec) :
  Importlib.find_spec_chain [World.PathFinder] n = Matched spec → spec_name spec = n.
Proof.
  cbn [Importlib.find_spec_chain World.PathFinder find_spec].
  destruct (_ !! n); [|done]. by intros [= <-].
Qed.

(** ** Directory listing *)


Section Listing.

Variable fs : filesystem.

Lemma skip_private_filter (dir : string) (l : list string) :
  foldr (λ n out, if Str.startswith n "_" then out else info_of dir n :: out) [] l
  = info_of dir <$> filter (λ n, Str.startswith n "_" = false) l.
Proof.
  induction l as [|n l IH]; [done|]. cbn [foldr]. rewrite filter_cons, IH.
  destruct (decide (Str.startswith n "_" = false)) as [E|E].
  - by rewrite E.
  - apply not_false_is_true in E. by rewrite E.
Qed.

Lemma StronglySorted_filter {A} (R : relation A) (P : A → Prop) `{∀ x, Decision (P x)}
    (l : list A) :
  StronglySorted R l → StronglySorted R (filter P l).
Proof.
  induction 1 as [|x l Hl IH Hx]; [constructor|].
  rewrite filter_cons. destruct (decide (P x)); [|done].
  constructor; [done|]. rewrite Forall_forall in Hx |- *.
  intros y Hy. apply list_elem_of_filter in Hy. apply Hx, Hy.
Qed.

(** The file names behind the listing of a directory that exists. *)
Lemma list_plugins_files (dir : string) :
  ∃ files : list string,
    list_plugins fs dir = info_of (fs_resolve fs dir) <$> files
    ∧ StronglySorted name_le files
    ∧ files ≡ₚ (if fs_exists fs (fs_resolve fs dir)
                then filter listed (fs_scandir fs (fs_resolve fs dir)) else []).
Proof.
  unfold list_plugins. destruct (fs_exists fs (fs_resolve fs dir)); simpl.
  - eexists. split; [apply skip_private_filter|]. split.
    + apply StronglySorted_filter, StronglySorted_merge_sort; apply _.
    + rewrite merge_sort_Permutation. rewrite list_filter_filter.
      apply reflexive_eq. apply list_filter_iff. intros n. unfold listed. tauto.
  - exists []. repeat split; constructor.
Qed.

End Listing.

(** C7.  [list_plugins] returns the source files of the directory, sorted
    by file name, without the names that begin with "_" and without the
    files that are not sources; a directory that does not exist or that is
    empty lists as the empty sequence (the function is total: nothing is
    raised); a directory whose source files are _private, a and b lists as
    a, b in that order, whatever order the system yields them in. *)
Theorem list_plugins_sorted_filtered (fs : filesystem) (dir : string) :
  let d := fs_resolve fs dir in
  (∃ files : list string,
     list_plugins fs dir = info_of d <$> files
     ∧ StronglySorted name_le files
     ∧ files ≡ₚ (if fs_exists fs d then filter listed (fs_scandir fs d) else []))
  ∧ (fs_exists fs d = false ∨ fs_scandir fs d = [] → list_plugins fs dir = [])
  ∧ (fs_exists fs d = true →
     filter (λ n, Str.endswith n ".py" = true) (fs_scandir fs d)
       ≡ₚ ["_private.py"; "a.py"; "b.py"] →
     name <$> list_plugins fs dir = ["a"; "b"]).
Proof.
  intros d. split; [apply list_plugins_files|].
  destruct (list_plugins_files fs dir) as (files & -> & Hsorted & Hperm). fold d in Hperm.
  split.
  - intros Hempty.
    assert (files ≡ₚ []) as Hnil.
    { destruct Hempty as [E|E]; rewrite E in Hperm; [done|].
      by destruct (fs_exists fs d). }
    by apply Permutation_nil_r in Hnil as ->.
  - intros Hex Hdir. rewrite Hex in Hperm.
    assert (files = ["a.py"; "b.py"]) as ->; [|done].
    apply (StronglySorted_unique name_le); [done| |].
    + repeat constructor.
    + rewrite Hperm.
      rewrite <- (list_filter_filter_l listed (λ n, Str.endswith n ".py" = true))
        by (intros n [H _]; exact H).
      by rewrite Hdir.
Qed.

(** The three parts at work on [World.fs]. *)
Lemma list_plugins_sorted_filtered_witness :
  list_plugins World.fs "./missing" = []
  ∧ name <$> list_plugins World.fs "./plugins" = ["a"; "b"].
Proof.
  split.
  - apply (list_plugins_sorted_filtered World.fs "./missing"). by left.
  - apply (list_plugins_sorted_filtered World.fs "./plugins"); [reflexivity|].
    change (["b.py"; "_private.py"; "a.py"] ≡ₚ ["_private.py"; "a.py"; "b.py"]).
    etrans; [apply perm_swap|]. apply perm_skip, perm_swap.
Defined.

(** ** Loading from a file *)

Section Loading.

Variable fs : filesystem.

Lemma import_from_file_missing (module_name path : string) (st : interp) :
  fs_exists fs (fs_resolve fs path) = false →
  import_from_file fs module_name path st
  = (st, Raise (Exn FileNotFoundError ("Plugin file not found: " +:+ fs_resolve fs path))).
Proof. intros H. unfold import_from_file. by rewrite H. Qed.

(** A load that finds its file, step by step: allocate, insert into the
    cache, execute. *)
Lemma import_from_file_run (module_name path : string) (body : module_body) (st : interp) :
  fs_exists fs (fs_resolve fs path) = true →
  fs_loader fs (fs_resolve fs path) = Some body →
  ∃ st',
    import_from_file fs module_name path st
    = (st', match (body (<[module_name := next_id st]> (sys_modules st)) ∅).2 with
            | None => Return (next_id st)
            | Some e => Raise e
            end)
    ∧ sys_modules st' = <[module_name := next_id st]> (sys_modules st)
    ∧ mod_dict <$> heap st' !! next_id st
      = Some (body (<[module_name := next_id st]> (sys_modules st)) ∅).1
    ∧ (∀ id, id ≠ next_id st → heap st' !! id = heap st !! id)
    ∧ next_id st' = S (next_id st)
    ∧ sys_meta_path st' = sys_meta_path st
    ∧ stdout st' = stdout st
    ∧ executed st' = executed st ++ [next_id st]
    ∧ entry_calls st' = entry_calls st.
Proof.
  intros Hex Hload. unfold import_from_file. rewrite Hex, Hload. simpl.
  unfold bind, modify, ret, Importlib.module_from_spec, Importlib.exec_module. simpl.
  rewrite lookup_insert_eq. simpl.
  destruct (body _ _) as [d [e|]] eqn:Hbody; simpl;
    (eexists; split; [reflexivity|]); simpl;
    rewrite lookup_insert_eq; repeat split; try done;
    intros id Hid; by rewrite !lookup_insert_ne.
Qed.

End Loading.

(** C5.  A load from a file that is missing fails with the interpreter
    untouched.  A load from a file that exists runs the content against a
    cache that already maps the logical name to the new unit, whose
    namespace is empty at that point; whether the content returns or
    raises, the cache keeps that entry afterwards, and the unit holds
    whatever the content bound before it stopped. *)
Theorem import_from_file_eager_insertion
    (fs : filesystem) (module_name path : string) (st : interp) :
  let p := fs_resolve fs path in
  let id := next_id st in
  let cache := <[module_name := id]> (sys_modules st) in
  (fs_exists fs p = false →
   ∃ e, import_from_file fs module_name path st = (st, Raise e)
        ∧ exn_cls e = FileNotFoundError)
  ∧ (∀ body, fs_exists fs p = true → fs_loader fs p = Some body →
     ∃ st', import_from_file fs module_name path st
            = (st', match (body cache ∅).2 with
                    | None => Return id
                    | Some e => Raise e
                    end)
            ∧ sys_modules st' !! module_name = Some id
            ∧ mod_dict <$> heap st' !! id = Some (body cache ∅).1
            ∧ executed st' = executed st ++ [id]).
Proof.
  intros p id cache. split.
  - intros Hmiss. eexists. split; [by apply import_from_file_missing|done].
  - intros body Hex Hload.
    destruct (import_from_file_run fs module_name path body st Hex Hload)
      as (st' & Hrun & Hcache & Hdict & _ & _ & _ & _ & Hexec & _).
    exists st'. repeat split; try done.
    rewrite Hcache. apply lookup_insert_eq.
Qed.

(** On [World.fs]: a missing file, and a file whose content binds [READY]
    and then raises. *)
Lemma import_from_file_eager_insertion_witness :
  (∃ e, import_from_file World.fs "__plugin__nope" "./plugins/nope.py" World.st0
        = (World.st0, Raise e) ∧ exn_cls e = FileNotFoundError)
  ∧ (∃ st', import_from_file World.fs "__plugin__broken" "./plugins/broken.py" World.st0
            = (st', Raise (Exn ValueError "bad configuration"))
            ∧ sys_modules st' !! "__plugin__broken" = Some 0%nat
            ∧ mod_dict <$> heap st' !! 0%nat = Some {[ "READY" := PyBool true ]}
            ∧ executed st' = [0%nat]).
Proof.
  split.
  - apply (import_from_file_eager_insertion World.fs "__plugin__nope" "./plugins/nope.py").
    reflexivity.
  - apply (proj2 (import_from_file_eager_insertion
                    World.fs "__plugin__broken" "./plugins/broken.py" World.st0)
             World.broken_body); reflexivity.
Defined.

(** ** The cache and repeated loads *)

Lemma sys_modules_get_Return (n : string) (st st' : interp) (m : nat) :
  Importlib.sys_modules_get n st = (st', Return m) → st' = st ∧ sys_modules st !! n = Some m.
Proof.
  unfold Importlib.sys_modules_get. destruct (sys_modules st !! n); intros [= <- <-] || intros [=].
  done.
Qed.

Lemma load_unlocked_caches (spec : ModuleSpec) (st st' : interp) (m : nat) :
  Importlib.load_unlocked spec st = (st', Return m) →
  sys_modules st' !! spec_name spec = Some m.
Proof.
  unfold Importlib.load_unlocked, bind, modify, Importlib.module_from_spec. simpl.
  destruct (spec_loader spec) as [body|]; simpl.
  - destruct (Importlib.exec_module body _ _) as [st1 [[]|e]]; [|intros [=]].
    intros H. by apply sys_modules_get_Return in H as [-> H].
  - unfold ret. intros H. by apply sys_modules_get_Return in H as [-> H].
Qed.

(** A by-name load that returns leaves the unit it returned in the cache,
    provided the finders answer with a spec of the name they were asked. *)
Lemma import_module_caches (n : string) (st st' : interp) (m : nat) :
  (∀ spec, Importlib.find_spec_chain (sys_meta_path st) n = Matched spec → spec_name spec = n) →
  Importlib.import_module n st = (st', Return m) →
  sys_modules st' !! n = Some m.
Proof.
  intros Hnamed. unfold Importlib.import_module.
  destruct (Str.startswith n "."); [intros [=]|]. case_decide as Hn; [intros [=]|].
  destruct (sys_modules st !! n) as [id|] eqn:Hc.
  - by intros [= <- <-].
  - destruct (Importlib.find_spec_chain _ _) as [spec| |e]; try (intros [=]; fail).
    intros H. apply load_unlocked_caches in H. by rewrite (Hnamed spec eq_refl) in H.
Qed.

(** A load by name returns only for a name that is neither relative nor
    empty. *)
Lemma import_module_Return_name (n : string) (st st' : interp) (m : nat) :
  Importlib.import_module n st = (st', Return m) → Str.startswith n "." = false ∧ n ≠ "".
Proof.
  unfold Importlib.import_module.
  destruct (Str.startswith n "."); [intros [=]|]. by case_decide as Hn; [intros [=]|].
Qed.

Lemma import_module_cached (n : string) (st : interp) (m : nat) :
  Str.startswith n "." = false → n ≠ "" →
  sys_modules st !! n = Some m → Importlib.import_module n st = (st, Return m).
Proof.
  intros Hrel Hne H. unfold Importlib.import_module.
  by rewrite Hrel, decide_False, H by done.
Qed.

(** A reload that returns: the finders knew the name, the code found again
    ran to its end in the namespace that the module had, and the object
    handed back is the one that was given. *)
Lemma reload_Return (m : nat) (st st' : interp) (m' : nat) :
  Importlib.reload m st = (st', Return m') →
  m' = m
  ∧ ∃ mo spec,
      heap st !! m = Some mo
      ∧ Importlib.find_spec_chain (sys_meta_path st) (name_of_unit mo) = Matched spec
      ∧ match spec_loader spec with
        | Some body =>
            (body (sys_modules st) (mod_dict mo)).2 = None
            ∧ mod_dict <$> heap st' !! m = Some (body (sys_modules st) (mod_dict mo)).1
            ∧ executed st' = executed st ++ [m]
        | None => executed st' = executed st
        end.
Proof.
  unfold Importlib.reload. destruct (heap st !! m) as [mo|]; [|intros [=]].
  case_decide as Hc; [|intros [=]].
  destruct (Importlib.find_spec_chain _ _) as [spec| |e] eqn:Hfind; try (intros [=]; fail).
  unfold bind, modify. simpl.
  destruct (spec_loader spec) as [body|] eqn:Hbody; simpl.
  - unfold Importlib.exec_module. simpl. rewrite lookup_insert_eq. simpl.
    destruct (body _ _) as [d [e|]] eqn:Hrun; simpl; [intros [=]|].
    intros H. apply sys_modules_get_Return in H as [-> H]. simpl in H.
    split; [congruence|]. exists mo, spec. rewrite Hbody, Hrun. repeat split; try done.
    simpl. by rewrite lookup_insert_eq.
  - unfold ret. intros H. apply sys_modules_get_Return in H as [-> H]. simpl in H.
    split; [congruence|]. exists mo, spec. by rewrite Hbody.
Qed.

(** [reload] hands back the very object it was given. *)
Lemma reload_same_object (m : nat) (st st' : interp) (m' : nat) :
  Importlib.reload m st = (st', Return m') → m' = m.
Proof. intros H. by apply reload_Return in H as [-> _]. Qed.

(** C1, as the code has it.  A load by registered name consults the cache:
    once a name has been loaded, loading it again returns the same unit and
    changes nothing, so no content runs.  A load from a file does not
    consult the cache: loading the same name from the same file again
    allocates a new unit, runs the content once more and rebinds the name
    to the new unit.  An explicit reload that returns has found the code of
    the unit again through the finders and run it once more, in the
    namespace that the unit already had, and it returns the unit it was
    given, not another one. *)
Theorem repeated_load (fs : filesystem) :
  (∀ n st st1 m,
     (∀ spec, Importlib.find_spec_chain (sys_meta_path st) n = Matched spec →
              spec_name spec = n) →
     import_by_name n st = (st1, Return m) →
     import_by_name n st1 = (st1, Return m))
  ∧ (∀ n path st st1 m1,
       import_from_file fs n path st = (st1, Return m1) →
       ∃ st2 r,
         import_from_file fs n path st1 = (st2, r)
         ∧ executed st2 = executed st1 ++ [next_id st1]
         ∧ sys_modules st2 !! n = Some (next_id st1)
         ∧ next_id st1 ≠ m1
         ∧ (∀ m2, r = Return m2 → m2 = next_id st1))
  ∧ (∀ m st st' m',
       Importlib.reload m st = (st', Return m') →
       m' = m
       ∧ ∃ mo spec,
           heap st !! m = Some mo
           ∧ Importlib.find_spec_chain (sys_meta_path st) (name_of_unit mo) = Matched spec
           ∧ match spec_loader spec with
             | Some body =>
                 (body (sys_modules st) (mod_dict mo)).2 = None
                 ∧ mod_dict <$> heap st' !! m
                   = Some (body (sys_modules st) (mod_dict mo)).1
                 ∧ executed st' = executed st ++ [m]
             | None => executed st' = executed st
             end).
Proof.
  split; [|split].
  - intros n st st1 m Hnamed H.
    destruct (import_module_Return_name _ _ _ _ H) as [Hrel Hne].
    apply import_module_cached; [done..|]. by apply (import_module_caches n st).
  - intros n path st st1 m1 H.
    destruct (fs_exists fs (fs_resolve fs path)) eqn:Hex;
      [|by rewrite import_from_file_missing in H].
    destruct (fs_loader fs (fs_resolve fs path)) as [body|] eqn:Hload;
      [|unfold import_from_file in H; by rewrite Hex, Hload in H].
    destruct (import_from_file_run fs n path body st Hex Hload)
      as (st1' & Hrun & _ & _ & _ & Hnext & _).
    rewrite H in Hrun.
    assert (m1 = next_id st ∧ st1 = st1') as [-> <-].
    { destruct (body _ _).2; [done|]. by injection Hrun as -> ->. }
    destruct (import_from_file_run fs n path body st1 Hex Hload)
      as (st2 & Hrun2 & Hcache & _ & _ & _ & _ & _ & Hexec & _).
    eexists st2, _. split; [exact Hrun2|]. repeat split; try done.
    + rewrite Hcache. apply lookup_insert_eq.
    + lia.
    + intros m2. destruct (body (<[n:=next_id st1]> (sys_modules st1)) ∅).2; congruence.
  - apply reload_Return.
Qed.

(** On [World]: json by name, the plugin hello by file, and a reload of
    json, after which the code of json has run twice in unit 0. *)
Lemma repeated_load_witness :
  import_by_name "json" World.st_json = (World.st_json, Return 0%nat)
  ∧ (∃ st2 r,
       import_from_file World.fs "__plugin__hello" "./plugins/hello.py" World.st_hello = (st2, r)
       ∧ executed st2 = executed World.st_hello ++ [1%nat]
       ∧ sys_modules st2 !! "__plugin__hello" = Some 1%nat
       ∧ 1%nat ≠ 0%nat
       ∧ (∀ m2, r = Return m2 → m2 = 1%nat))
  ∧ (0%nat = 0%nat
     ∧ ∃ mo spec,
         heap World.st_json !! 0%nat = Some mo
         ∧ Importlib.find_spec_chain (sys_meta_path World.st_json) (name_of_unit mo)
           = Matched spec
         ∧ match spec_loader spec with
           | Some body =>
               (body (sys_modules World.st_json) (mod_dict mo)).2 = None
               ∧ mod_dict <$> heap (Importlib.reload 0%nat World.st_json).1 !! 0%nat
                 = Some (body (sys_modules World.st_json) (mod_dict mo)).1
               ∧ executed (Importlib.reload 0%nat World.st_json).1
                 = executed World.st_json ++ [0%nat]
           | None =>
               executed (Importlib.reload 0%nat World.st_json).1 = executed World.st_json
           end)
  ∧ executed (Importlib.reload 0%nat World.st_json).1 = [0%nat; 0%nat].
Proof.
  pose proof (repeated_load World.fs) as (Hname & Hfile & Hreload).
  split; [|split; [|split]].
  - apply (Hname "json" World.st0 World.st_json 0%nat).
    + apply PathFinder_named.
    + apply (run_eq (import_by_name "json" World.st0)). vm_compute. reflexivity.
  - apply (Hfile "__plugin__hello" "./plugins/hello.py" World.st0 World.st_hello 0%nat).
    apply (run_eq (import_from_file World.fs "__plugin__hello" "./plugins/hello.py" World.st0)).
    vm_compute. reflexivity.
  - apply (Hreload 0%nat World.st_json (Importlib.reload 0%nat World.st_json).1 0%nat).
    apply (run_eq (Importlib.reload 0%nat World.st_json)). vm_compute. reflexivity.
  - vm_compute. reflexivity.
Defined.

(** C1 as stated fails for loads from a file: the plugin hello, loaded twice
    in a row with no reload in between, comes back as unit 0 and then as
    unit 1, its content has run twice, and the cache holds the second
    unit. *)
Lemma second_file_load_counterexample :
  (load_plugin World.fs "hello" "./plugins" World.st0).2
  = Return (0%nat, "plugin:/work/plugins/hello.py")
  ∧ (load_plugin World.fs "hello" "./plugins" World.st_hello).2
    = Return (1%nat, "plugin:/work/plugins/hello.py")
  ∧ executed (load_plugin World.fs "hello" "./plugins" World.st_hello).1 = [0%nat; 1%nat]
  ∧ sys_modules (load_plugin World.fs "hello" "./plugins" World.st_hello).1 !! "__plugin__hello"
    = Some 1%nat.
Proof. vm_compute. repeat split. Qed.

(** ** Targets *)

Lemma startswith_app (pre s : string) : Str.startswith (pre +:+ s) pre = true.
Proof. induction pre as [|c pre IH]; [done|]. simpl. by rewrite Ascii.eqb_refl. Qed.

Lemma load_plugin_refines (fs : filesystem) (target dir : string) (st : interp) :
  load_plugin fs target dir st = load_intent fs (parse target dir) st.
Proof.
  unfold load_plugin, load_intent, parse.
  destruct (Str.startswith target "path:"); [done|].
  destruct (Str.startswith target "name:"); done.
Qed.

(** C3.  [load_plugin] is the parser followed by the load of the intent:
    the prefix "path:" is tested first and gives the rest of the target as
    an explicit path, whatever the base directory; then "name:" gives the
    rest as a registered name; every other target is a short name in the
    base directory and stands for the file baseDir/T.py.  The parser is a
    total function; a file that does not exist shows only when the intent
    is loaded, as [FileNotFoundError]. *)
Theorem load_plugin_parse (fs : filesystem) (target dir : string) :
  (∀ st, load_plugin fs target dir st = load_intent fs (parse target dir) st)
  ∧ (∀ P base, parse ("path:" +:+ P) base = ByExplicitPath P)
  ∧ (∀ N base, parse ("name:" +:+ N) base = ByRegisteredName N)
  ∧ (Str.startswith target "path:" = false → Str.startswith target "name:" = false →
     parse target dir = ByConventionDir dir target
     ∧ intent_file fs (parse target dir)
       = Some (Path.joinpath (fs_resolve fs dir) (target +:+ ".py")))
  ∧ (∀ p st, intent_file fs (parse target dir) = Some p →
             fs_exists fs (fs_resolve fs p) = false →
             ∃ e, load_plugin fs target dir st = (st, Raise e)
                  ∧ exn_cls e = FileNotFoundError).
Proof.
  split; [apply load_plugin_refines|]. split; [|split; [|split]].
  - intros P base. unfold parse. rewrite (startswith_app "path:" P). reflexivity.
  - intros N base. unfold parse. rewrite (startswith_app "name:" N). reflexivity.
  - intros Hp Hn. unfold parse. by rewrite Hp, Hn.
  - intros p st Hfile Hmiss. rewrite load_plugin_refines. unfold load_intent, bind.
    rewrite Hfile.
    rewrite import_from_file_missing by done. eauto.
Qed.

(** The short name hello in ./plugins, and a short name without a file. *)
Lemma load_plugin_parse_witness :
  (parse "hello" "./plugins" = ByConventionDir "./plugins" "hello"
   ∧ intent_file World.fs (parse "hello" "./plugins") = Some "/work/plugins/hello.py")
  ∧ (∃ e, load_plugin World.fs "nope" "./plugins" World.st0 = (World.st0, Raise e)
          ∧ exn_cls e = FileNotFoundError).
Proof.
  split.
  - apply (load_plugin_parse World.fs "hello" "./plugins"); reflexivity.
  - apply (load_plugin_parse World.fs "nope" "./plugins") with (p := "/work/plugins/nope.py");
      reflexivity.
Defined.

(** A successful [load_plugin] leaves the unit it returns in the cache
    under the logical name of its intent. *)
Lemma load_plugin_caches (fs : filesystem) (target dir : string) (st st' : interp)
    (m : nat) (lbl : string) :
  (intent_file fs (parse target dir) = None →
   ∀ spec, Importlib.find_spec_chain (sys_meta_path st) (logical_name (parse target dir))
           = Matched spec →
           spec_name spec = logical_name (parse target dir)) →
  load_plugin fs target dir st = (st', Return (m, lbl)) →
  sys_modules st' !! logical_name (parse target dir) = Some m.
Proof.
  intros Hnamed. rewrite load_plugin_refines.
  unfold load_intent, bind, ret.
  destruct (intent_file fs (parse target dir)) as [p|] eqn:Hfile.
  - destruct (import_from_file fs _ p st) as [st1 [m1|e]] eqn:Hload; [|intros [=]].
    intros [= <- <- _].
    destruct (fs_exists fs (fs_resolve fs p)) eqn:Hex;
      [|by rewrite import_from_file_missing in Hload].
    destruct (fs_loader fs (fs_resolve fs p)) as [body|] eqn:Hbody;
      [|unfold import_from_file in Hload; by rewrite Hex, Hbody in Hload].
    destruct (import_from_file_run fs (logical_name (parse target dir)) p body st Hex Hbody)
      as (st2 & Hrun & Hcache & _).
    rewrite Hload in Hrun.
    destruct (body _ _).2; [done|]. injection Hrun as -> ->.
    rewrite Hcache. apply lookup_insert_eq.
  - destruct (import_by_name _ st) as [st1 [m1|e]] eqn:Hload; [|intros [=]].
    intros [= <- <- _]. apply (import_module_caches _ st); [by apply Hnamed|done].
Qed.

(** C4, as the code has it.  The unit that [load_plugin] returns is cached
    under the logical name of the intent.  An explicit path gives
    "__plugin__" followed by the stem of the path, a short name gives
    "__plugin__" followed by the short name, a registered name is taken as
    it is.  A registered name that does not begin with "__plugin__" never
    shares its key with a file; nothing separates the keys of explicit
    paths from those of short names, nor a registered name that begins with
    "__plugin__" from either. *)
Theorem logical_name_keys (fs : filesystem) :
  (∀ target dir st st' m lbl,
     (intent_file fs (parse target dir) = None →
      ∀ spec, Importlib.find_spec_chain (sys_meta_path st) (logical_name (parse target dir))
              = Matched spec →
              spec_name spec = logical_name (parse target dir)) →
     load_plugin fs target dir st = (st', Return (m, lbl)) →
     sys_modules st' !! logical_name (parse target dir) = Some m)
  ∧ (∀ p, logical_name (ByExplicitPath p) = "__plugin__" +:+ Path.stem p)
  ∧ (∀ base t, logical_name (ByConventionDir base t) = "__plugin__" +:+ t)
  ∧ (∀ n, logical_name (ByRegisteredName n) = n)
  ∧ (∀ n i, Str.startswith n "__plugin__" = false →
            intent_file fs i ≠ None →
            logical_name (ByRegisteredName n) ≠ logical_name i).
Proof.
  split; [apply load_plugin_caches|]. repeat split.
  intros n i Hn Hfile Heq. simpl in Heq. subst n.
  destruct i as [n|p|base t]; [done| |]; unfold logical_name in Hn.
  - by rewrite (startswith_app "__plugin__" (Path.stem p)) in Hn.
  - by rewrite (startswith_app "__plugin__" t) in Hn.
Qed.

(** On [World]: the plugin hello is cached under "__plugin__hello", json
    under "json", and json shares its key with no file. *)
Lemma logical_name_keys_witness :
  sys_modules World.st_hello !! "__plugin__hello" = Some 0%nat
  ∧ sys_modules (load_plugin World.fs "name:json" "./plugins" World.st0).1 !! "json" = Some 0%nat
  ∧ "json" ≠ logical_name (ByExplicitPath "./other/json.py").
Proof.
  pose proof (logical_name_keys World.fs) as (Hcache & _ & _ & _ & Hsep).
  split; [|split].
  - apply (Hcache "hello" "./plugins" World.st0 World.st_hello 0%nat
             "plugin:/work/plugins/hello.py").
    + intros H. discriminate H.
    + apply (run_eq (load_plugin World.fs "hello" "./plugins" World.st0)).
      vm_compute. reflexivity.
  - apply (Hcache "name:json" "./plugins" World.st0 _ 0%nat "name:json").
    + intros _. apply PathFinder_named.
    + apply (run_eq (load_plugin World.fs "name:json" "./plugins" World.st0)).
      vm_compute. reflexivity.
  - apply (Hsep "json" (ByExplicitPath "./other/json.py")); [reflexivity|discriminate].
Defined.

(** C4 as stated fails: the short name hello and the explicit path
    ./other/hello.py are targets of different intents with the one key
    "__plugin__hello".  Loading the second after the first takes the first
    unit out of the cache, and the registered name "__plugin__hello" then
    resolves to a plugin file's unit. *)
Lemma cache_key_collision_counterexample :
  parse "hello" "./plugins" = ByConventionDir "./plugins" "hello"
  ∧ parse "path:./other/hello.py" "./plugins" = ByExplicitPath "./other/hello.py"
  ∧ logical_name (parse "hello" "./plugins")
    = logical_name (parse "path:./other/hello.py" "./plugins")
  ∧ sys_modules World.st_hello !! "__plugin__hello" = Some 0%nat
  ∧ (load_plugin World.fs "path:./other/hello.py" "./plugins" World.st_hello).2
    = Return (1%nat, "file:/work/other/hello.py")
  ∧ sys_modules (load_plugin World.fs "path:./other/hello.py" "./plugins" World.st_hello).1
      !! "__plugin__hello" = Some 1%nat
  ∧ (load_plugin World.fs "name:__plugin__hello" "./plugins" World.st_hello).2
    = Return (0%nat, "name:__plugin__hello").
Proof. vm_compute. repeat split. Qed.

(** ** Invocation *)

Lemma call_plugin_no_main (module : nat) (mo : module_obj) (argv : list string)
    (st : interp) :
  heap st !! module = Some mo →
  mod_dict mo !! "main" = None →
  call_plugin module argv st
  = (st, Raise (Exn AttributeError "Plugin must define function main(argv) or main()")).
Proof.
  intros Hm Hmain. unfold call_plugin, bind, get, hasattr. rewrite Hm. simpl. rewrite Hmain.
  by rewrite bool_decide_eq_false_2 by (by intros [? ?]).
Qed.

(** C8.  Invoking a unit that has no attribute [main] raises
    [AttributeError] and leaves the whole interpreter as it was: the cache,
    the units, and no call is made. *)
Theorem call_plugin_missing_main (module : nat) (mo : module_obj) (argv : list string)
    (st : interp) :
  heap st !! module = Some mo →
  mod_dict mo !! "main" = None →
  ∃ e, call_plugin module argv st = (st, Raise e) ∧ exn_cls e = AttributeError.
Proof. intros Hm Hmain. eexists. split; [by eapply call_plugin_no_main|done]. Qed.

(** The unit of json, which has [loads] and no [main]. *)
Lemma call_plugin_missing_main_witness :
  ∃ e, call_plugin 0%nat ["x"] World.st_json = (World.st_json, Raise e)
       ∧ exn_cls e = AttributeError.
Proof.
  apply (call_plugin_missing_main 0%nat
           {| mod_name := "json"; mod_file := Some "/usr/lib/python3/json.py";
              mod_spec := Some {| spec_name := "json";
                                  spec_origin := Some "/usr/lib/python3/json.py";
                                  spec_loader := Some World.json_body |};
              mod_dict := {[ "loads" := PyFunc 1 (Some 1%nat) (λ _, Return PyNone) ]} |});
    reflexivity.
Defined.

(** What the [try] of [call_plugin] does with a first attempt that raises:
    any [TypeError] starts the second attempt, wherever it came from. *)
Lemma call_plugin_fallback (module : nat) (fn : pyvalue) (argv : list string)
    (st : interp) (e : exn) :
  heap st !! module ≫= (λ m, mod_dict m !! "main") = Some fn →
  (∃ r, py_call fn [argv] = Return r ∧ py_int r = Raise e) ∨ py_call fn [argv] = Raise e →
  isinstance e TypeError = true →
  call_plugin module argv st
  = (let* r := call fn [] in lift (py_int r)) (set_entry_calls (λ l, l ++ [[argv]]) st).
Proof.
  intros Hfn Hfirst Hty. unfold call_plugin, bind, get, hasattr, getattr. rewrite Hfn.
  rewrite bool_decide_eq_true_2 by eauto. cbn [negb].
  unfold try_except. unfold call at 1. unfold bind, modify, lift. rewrite Hfn.
  destruct Hfirst as [(r & -> & ->)| ->]; by rewrite Hty.
Qed.

(** C2, where the code departs from it.  [picky] accepts the argument list
    and raises [TypeError] from inside its body; [quiet] accepts it and
    returns [None], which [int()] rejects with [TypeError].  Neither is an
    argument-count mismatch, and both times the entry point is called a
    second time without arguments: for [picky] the second call returns 0 and
    the error is lost, for [quiet] the body runs twice before the error
    comes out. *)
Theorem call_plugin_swallows_TypeError :
  py_call World.picky_main [["x"]]
  = Raise (Exn TypeError "unsupported operand type(s) for +: 'int' and 'str'")
  ∧ (call_plugin 0%nat ["x"] World.st_picky).2 = Return 0
  ∧ entry_calls (call_plugin 0%nat ["x"] World.st_picky).1 = [[["x"]]; []]
  ∧ py_call World.quiet_main [["x"]] = Return PyNone
  ∧ (∃ e, (call_plugin 0%nat ["x"] World.st_quiet).2 = Raise e ∧ exn_cls e = TypeError)
  ∧ entry_calls (call_plugin 0%nat ["x"] World.st_quiet).1 = [[["x"]]; []].
Proof. vm_compute. repeat split. eexists. split; reflexivity. Qed.

(** ** The demo finder *)

Lemma set_stdout_id (st : interp) : set_stdout (λ out, out ++ []) st = st.
Proof. destruct st. unfold set_stdout. simpl. by rewrite app_nil_r. Qed.

Lemma set_stdout_app (l1 l2 : list string) (st : interp) :
  set_stdout (λ out, out ++ l2) (set_stdout (λ out, out ++ l1) st)
  = set_stdout (λ out, out ++ l1 ++ l2) st.
Proof. unfold set_stdout. simpl. by rewrite app_assoc. Qed.

(** A loop that prints one line per element. *)
Lemma for_each_print {A} (g : A → string) (l : list A) (st : interp) :
  for_each l (λ x, print (g x)) st = (set_stdout (λ out, out ++ (g <$> l)) st, Return tt).
Proof.
  revert st. induction l as [|x l IH]; intros st.
  - simpl. unfold ret. by rewrite set_stdout_id.
  - unfold for_each in *. cbn [foldr]. unfold bind at 1. unfold print, modify.
    rewrite IH. by rewrite set_stdout_app.
Qed.

Lemma demo_import (st : interp) :
  sys_modules st !! "demo_hook" = None →
  Importlib.find_spec_chain (sys_meta_path st) "demo_hook"
  = Matched (Importlib.spec_from_loader "demo_hook" Demo.exec_module) →
  ∃ st',
    Importlib.import_module "demo_hook" st = (st', Return (next_id st))
    ∧ sys_modules st' = <["demo_hook" := next_id st]> (sys_modules st)
    ∧ mod_dict <$> heap st' !! next_id st = Some (Demo.exec_module ∅ ∅).1
    ∧ sys_meta_path st' = sys_meta_path st.
Proof.
  intros Hc Hfind. unfold Importlib.import_module. rewrite Hc, Hfind.
  unfold Importlib.load_unlocked, bind, modify, Importlib.module_from_spec,
    Importlib.exec_module, Importlib.sys_modules_get. simpl.
  rewrite lookup_insert_eq. simpl. rewrite lookup_insert_eq.
  eexists. split; [reflexivity|]. simpl. rewrite lookup_insert_eq. done.
Qed.

Lemma getattr_Return (module : nat) (mo : module_obj) (attr : string) (v : pyvalue)
    (st : interp) :
  heap st !! module = Some mo → mod_dict mo !! attr = Some v →
  getattr module attr st = (st, Return v).
Proof. intros Hm Hv. unfold getattr. rewrite Hm. simpl. by rewrite Hv. Qed.

(** The demo program from a state that has not seen demo_hook. *)
Lemma demo_main_run (st : interp) :
  sys_modules st !! "demo_hook" = None →
  ∃ st' mo,
    Demo.main st = (st', Return 0)
    ∧ sys_meta_path st' = Demo.DemoFinder :: sys_meta_path st
    ∧ sys_modules st' !! "demo_hook" = Some (next_id st)
    ∧ heap st' !! next_id st = Some mo
    ∧ mod_dict mo = (Demo.exec_module ∅ ∅).1.
Proof.
  intros Hc. unfold Demo.main.
  erewrite bind_Return by reflexivity.
  erewrite bind_Return by reflexivity.
  erewrite bind_Return by reflexivity.
  erewrite bind_Return by reflexivity.
  erewrite bind_Return by reflexivity.
  erewrite bind_Return by reflexivity.
  erewrite bind_Return by apply for_each_print.
  erewrite bind_Return by reflexivity.
  match goal with
  | |- context [bind (Importlib.import_module _) _ ?s] =>
      destruct (demo_import s) as (st4 & Himp & Hcache & Hdict & Hmeta)
  end.
  { exact Hc. }
  { reflexivity. }
  simpl in Himp, Hcache, Hdict, Hmeta.
  destruct (heap st4 !! next_id st) as [mo|] eqn:Hmo; [|done].
  injection Hdict as Hdict.
  erewrite bind_Return by exact Himp.
  erewrite bind_Return by reflexivity.
  erewrite bind_Return by reflexivity.
  erewrite bind_Return
    by (apply (getattr_Return _ mo "VALUE" (PyInt 123)); [exact Hmo|by rewrite Hdict]).
  erewrite bind_Return by reflexivity.
  erewrite bind_Return
    by (apply (getattr_Return _ mo "hello"); [exact Hmo|by rewrite Hdict]).
  erewrite bind_Return by reflexivity.
  erewrite bind_Return by reflexivity.
  erewrite bind_Return
    by (apply (getattr_Return _ mo "__doc__"); [exact Hmo|by rewrite Hdict]).
  erewrite bind_Return by reflexivity.
  eexists _, mo. split; [reflexivity|]. simpl. rewrite Hmeta, Hcache, lookup_insert_eq.
  done.
Qed.

(** C9.  [DemoFinder] answers with a spec for the name demo_hook and with
    [None], not an exception, for every other name, so that a chain with the
    finder in front goes on to the finders behind it.  The demo program puts
    the finder in front of [sys.meta_path] and imports demo_hook: the unit
    it gets has [VALUE] equal to 123 and no [main], and invoking it raises
    [AttributeError]. *)
Theorem demo_finder_synthetic_unit :
  (∀ n, (∃ spec, find_spec Demo.DemoFinder n = Matched spec) ↔ n = "demo_hook")
  ∧ (∀ n, n ≠ "demo_hook" → find_spec Demo.DemoFinder n = NoMatch)
  ∧ (∀ n rest, n ≠ "demo_hook" →
       Importlib.find_spec_chain (Demo.DemoFinder :: rest) n
       = Importlib.find_spec_chain rest n)
  ∧ (∀ st, sys_modules st !! "demo_hook" = None →
       ∃ st' m mo,
         Demo.main st = (st', Return 0)
         ∧ sys_meta_path st' = Demo.DemoFinder :: sys_meta_path st
         ∧ sys_modules st' !! "demo_hook" = Some m
         ∧ heap st' !! m = Some mo
         ∧ mod_dict mo !! "VALUE" = Some (PyInt 123)
         ∧ mod_dict mo !! "main" = None
         ∧ ∀ argv, ∃ e, call_plugin m argv st' = (st', Raise e)
                        ∧ exn_cls e = AttributeError).
Proof.
  assert (∀ n, n ≠ "demo_hook" → find_spec Demo.DemoFinder n = NoMatch) as Hother.
  { intros n Hn. simpl. by rewrite decide_False. }
  split; [|split; [exact Hother|split]].
  - intros n. split.
    + intros [spec H]. destruct (decide (n = "demo_hook")) as [|Hn]; [done|].
      by rewrite Hother in H.
    + intros ->. eexists. reflexivity.
  - intros n rest Hn. cbn [Importlib.find_spec_chain]. by rewrite Hother.
  - intros st Hc. destruct (demo_main_run st Hc) as (st' & mo & Hrun & Hmeta & Hcache & Hmo & Hd).
    exists st', (next_id st), mo. repeat split; try done.
    + by rewrite Hd.
    + by rewrite Hd.
    + intros argv. eexists. split; [apply (call_plugin_no_main _ mo)|]; try done.
      by rewrite Hd.
Qed.

(** The demo program on the interpreter at start-up. *)
Lemma demo_finder_synthetic_unit_witness :
  find_spec Demo.DemoFinder "json" = NoMatch
  ∧ Importlib.find_spec_chain [Demo.DemoFinder; World.PathFinder] "json"
    = Importlib.find_spec_chain [World.PathFinder] "json"
  ∧ ∃ st' m mo,
      Demo.main World.st0 = (st', Return 0)
      ∧ sys_meta_path st' = Demo.DemoFinder :: sys_meta_path World.st0
      ∧ sys_modules st' !! "demo_hook" = Some m
      ∧ heap st' !! m = Some mo
      ∧ mod_dict mo !! "VALUE" = Some (PyInt 123)
      ∧ mod_dict mo !! "main" = None
      ∧ ∀ argv, ∃ e, call_plugin m argv st' = (st', Raise e)
                     ∧ exn_cls e = AttributeError.
Proof.
  pose proof demo_finder_synthetic_unit as (_ & Hother & Hchain & Hmain).
  split; [|split].
  - apply Hother. discriminate.
  - apply Hchain. discriminate.
  - apply Hmain. reflexivity.
Defined.

(** ** The calls that reach an entry point *)

Section Calls.

Context {A B : Type}.

Lemma quiet_emits (P : list (list string) → Prop) (m : Py A) : quiet m → emits P m.
Proof. intros H st. exists []. by rewrite app_nil_r, H. Qed.

Lemma quiet_ret (a : A) : quiet (ret a).
Proof. by intros st. Qed.

Lemma quiet_raise (c : exn_class) (msg : string) : quiet (@raise A c msg).
Proof. by intros st. Qed.

Lemma quiet_lift (o : outcome A) : quiet (lift o).
Proof. by intros st. Qed.

Lemma quiet_get (f : interp → A) : quiet (get f).
Proof. by intros st. Qed.

Lemma quiet_bind (m : Py A) (k : A → Py B) :
  quiet m → (∀ a, quiet (k a)) → quiet (bind m k).
Proof.
  intros Hm Hk st. unfold bind. specialize (Hm st).
  destruct (m st) as [st1 [a|e]]; simpl in *; [|done]. by rewrite Hk.
Qed.

Lemma quiet_try_except (m : Py A) (c : exn_class) (h : exn → Py A) :
  quiet m → (∀ e, quiet (h e)) → quiet (try_except m c h).
Proof.
  intros Hm Hh st. unfold try_except. specialize (Hm st).
  destruct (m st) as [st1 [a|e]]; simpl in *; [done|].
  destruct (isinstance e c); [|done]. by rewrite Hh.
Qed.

Lemma emits_bind (P : list (list string) → Prop) (m : Py A) (k : A → Py B) :
  emits P m → (∀ a, emits P (k a)) → emits P (bind m k).
Proof.
  intros Hm Hk st. unfold bind. destruct (Hm st) as (c1 & E1 & H1).
  destruct (m st) as [st1 [a|e]]; simpl in *; [|by exists c1].
  destruct (Hk a st1) as (c2 & E2 & H2). exists (c1 ++ c2).
  rewrite E2, E1, app_assoc. split; [done|]. by apply Forall_app.
Qed.

Lemma emits_try_except (P : list (list string) → Prop) (m : Py A) (c : exn_class)
    (h : exn → Py A) :
  emits P m → (∀ e, emits P (h e)) → emits P (try_except m c h).
Proof.
  intros Hm Hh st. unfold try_except. destruct (Hm st) as (c1 & E1 & H1).
  destruct (m st) as [st1 [a|e]]; simpl in *; [by exists c1|].
  destruct (isinstance e c); [|by exists c1].
  destruct (Hh e st1) as (c2 & E2 & H2). exists (c1 ++ c2).
  rewrite E2, E1, app_assoc. split; [done|]. by apply Forall_app.
Qed.

End Calls.

Lemma quiet_print (line : string) : quiet (print line).
Proof. by intros st. Qed.

Lemma quiet_for_each {A} (l : list A) (body : A → Py unit) :
  (∀ x, quiet (body x)) → quiet (for_each l body).
Proof.
  intros H. induction l as [|x l IH]; [by intros st|].
  apply (quiet_bind (body x)); [apply H|]. intros _. exact IH.
Qed.

Lemma quiet_exec_module (body : module_body) (id : nat) : quiet (Importlib.exec_module body id).
Proof.
  intros st. unfold Importlib.exec_module. destruct (heap st !! id); [|done].
  by destruct (body _ _).
Qed.

Lemma quiet_sys_modules_get (n : string) : quiet (Importlib.sys_modules_get n).
Proof. intros st. unfold Importlib.sys_modules_get. by destruct (sys_modules st !! n). Qed.

Lemma quiet_load_unlocked (spec : ModuleSpec) : quiet (Importlib.load_unlocked spec).
Proof.
  unfold Importlib.load_unlocked.
  apply quiet_bind; [by intros st|]. intros id.
  apply quiet_bind; [by intros st|]. intros _.
  apply quiet_bind; [|intros _; apply quiet_sys_modules_get].
  destruct (spec_loader spec) as [body|]; [|apply quiet_ret].
  intros st. pose proof (quiet_exec_module body id st) as H.
  by destruct (Importlib.exec_module body id st) as [st1 [[]|e]].
Qed.

Lemma quiet_import_module (n : string) : quiet (Importlib.import_module n).
Proof.
  intros st. unfold Importlib.import_module.
  destruct (Str.startswith n "."); [done|]. case_decide; [done|].
  destruct (sys_modules st !! n); [done|].
  destruct (Importlib.find_spec_chain _ _); try done. apply quiet_load_unlocked.
Qed.

Lemma quiet_util_find_spec (n : string) : quiet (Importlib.util_find_spec n).
Proof.
  intros st. unfold Importlib.util_find_spec. destruct (sys_modules st !! n).
  - by destruct (heap st !! _ ≫= mod_spec).
  - by destruct (Importlib.find_spec_chain _ _).
Qed.

Lemma quiet_reload (m : nat) : quiet (Importlib.reload m).
Proof.
  intros st. unfold Importlib.reload. destruct (heap st !! m) as [mo|]; [|done].
  case_decide as Hc; [|done]. clear Hc.
  destruct (Importlib.find_spec_chain _ _) as [spec| |e]; try done.
  revert st. apply quiet_bind; [by intros st|]. intros _.
  apply quiet_bind; [|intros _; apply quiet_sys_modules_get].
  destruct (spec_loader spec); [apply quiet_exec_module|apply quiet_ret].
Qed.

Lemma quiet_getattr (module : nat) (attr : string) : quiet (getattr module attr).
Proof. intros st. unfold getattr. by destruct (heap st !! module ≫= _). Qed.

Lemma quiet_import_from_file (fs : filesystem) (n path : string) :
  quiet (import_from_file fs n path).
Proof.
  unfold import_from_file. destruct (negb _); [apply quiet_raise|].
  destruct (fs_loader fs _) as [body|]; [|apply quiet_raise].
  apply quiet_bind; [by intros st|]. intros id.
  apply quiet_bind; [by intros st|]. intros _.
  apply quiet_bind; [apply quiet_exec_module|]. intros _. apply quiet_ret.
Qed.

Lemma quiet_load_plugin (fs : filesystem) (target dir : string) :
  quiet (load_plugin fs target dir).
Proof.
  unfold load_plugin. destruct (Str.startswith target "path:").
  { apply quiet_bind; [apply quiet_import_from_file|]. intros m. apply quiet_ret. }
  destruct (Str.startswith target "name:").
  { apply quiet_bind; [apply quiet_import_module|]. intros m. apply quiet_ret. }
  apply quiet_bind; [apply quiet_import_from_file|]. intros m. apply quiet_ret.
Qed.

Lemma quiet_main_options (args : cli_args) : quiet (main_options args).
Proof.
  unfold main_options. apply quiet_bind.
  - destruct (meta_path args); [|apply quiet_ret]. unfold print_meta_path.
    apply quiet_bind; [apply quiet_print|]. intros _.
    apply quiet_bind; [apply quiet_get|]. intros finders.
    apply quiet_for_each. intros f. apply quiet_print.
  - intros _. destruct (where_ args) as [w|]; [|apply quiet_ret].
    case_decide; [apply quiet_ret|]. unfold find_spec_origin.
    apply quiet_bind; [|intros origin; apply quiet_print].
    apply quiet_bind; [apply quiet_util_find_spec|]. intros [spec|]; apply quiet_ret.
Qed.

Lemma quiet_main_list (fs : filesystem) (dir : string) : quiet (main_list fs dir).
Proof.
  unfold main_list. destruct (list_plugins fs dir) as [|pi plugs].
  - apply quiet_bind; [apply quiet_print|]. intros _.
    apply quiet_bind; [apply quiet_print|]. intros _. apply quiet_ret.
  - apply quiet_bind; [apply quiet_print|]. intros _.
    apply quiet_bind; [|intros _; apply quiet_ret].
    apply quiet_for_each. intros x. apply quiet_print.
Qed.

Lemma emits_call (P : list (list string) → Prop) (fn : pyvalue) (args : list (list string)) :
  P args → emits P (call fn args).
Proof.
  intros HP st. exists [args]. unfold call, bind, modify, lift. simpl.
  split; [done|]. by constructor.
Qed.

(** [call_plugin] calls with the argument list it was given, or with none. *)
Lemma emits_call_plugin (module : nat) (argv : list string) :
  emits (λ c, c = [argv] ∨ c = []) (call_plugin module argv).
Proof.
  unfold call_plugin. apply emits_bind; [apply quiet_emits, quiet_get|]. intros has_main.
  destruct (negb has_main); [apply quiet_emits, quiet_raise|].
  apply emits_bind; [apply quiet_emits, quiet_getattr|]. intros fn.
  apply emits_try_except; [|intros _].
  - apply emits_bind; [apply emits_call; by left|]. intros r. apply quiet_emits, quiet_lift.
  - apply emits_bind; [apply emits_call; by right|]. intros r. apply quiet_emits, quiet_lift.
Qed.

Lemma emits_main_run (fs : filesystem) (dir : string) (run : run_args) :
  emits (λ c, c = [filter (λ a, a ≠ "--") (plugin_args run)] ∨ c = []) (main_run fs dir run).
Proof.
  unfold main_run. apply emits_bind; [apply quiet_emits, quiet_load_plugin|].
  intros [module label]. apply emits_bind.
  - apply quiet_emits. destruct (reload run); [|apply quiet_ret].
    apply quiet_try_except.
    + apply quiet_bind; [apply quiet_reload|]. intros m'. apply quiet_ret.
    + intros e. apply quiet_bind; [apply quiet_print|]. intros _. apply quiet_ret.
  - intros [module' label'].
    apply emits_bind; [apply quiet_emits, quiet_print|]. intros _.
    apply emits_bind; [apply quiet_emits, quiet_get|]. intros mname.
    apply emits_bind; [apply quiet_emits, quiet_print|]. intros _.
    apply emits_bind; [apply quiet_emits, quiet_get|]. intros mfile.
    apply emits_bind; [apply quiet_emits, quiet_print|]. intros _.
    apply emits_call_plugin.
Qed.

Lemma emits_mono {A} (P Q : list (list string) → Prop) (m : Py A) :
  (∀ c, P c → Q c) → emits P m → emits Q m.
Proof.
  intros HPQ Hm st. destruct (Hm st) as (calls & E & H). exists calls. split; [done|].
  eapply Forall_impl; eauto.
Qed.

(** C10.  Whatever [main] is given, every argument list that it passes to
    an entry point is the list of trailing arguments of the [run]
    subcommand without its elements equal to "--": all of them are taken
    out, wherever they stand, so "--" never reaches the entry point. *)
Theorem main_strips_separators (fs : filesystem) (args : cli_args) (st : interp) :
  ∃ calls,
    entry_calls (main fs args st).1 = entry_calls st ++ calls
    ∧ ∀ c argv, c ∈ calls → argv ∈ c →
        ("--" ∉ argv)
        ∧ ∃ run, cmd args = Some run ∧ argv = filter (λ a, a ≠ "--") (plugin_args run).
Proof.
  assert (emits (λ c, ∀ argv, argv ∈ c →
                   ("--" ∉ argv)
                   ∧ ∃ run, cmd args = Some run
                            ∧ argv = filter (λ a, a ≠ "--") (plugin_args run))
            (main fs args)) as Hmain.
  { unfold main. apply emits_bind; [apply quiet_emits, quiet_main_options|]. intros _.
    destruct (list_flag args); [apply quiet_emits, quiet_main_list|].
    destruct (cmd args) as [run|] eqn:Hcmd.
    - eapply emits_mono; [|apply emits_main_run].
      intros c [-> | ->] argv Hin; [|by apply elem_of_nil in Hin].
      apply list_elem_of_singleton in Hin as ->. split; [|by exists run].
      intros Hsep. apply list_elem_of_filter in Hsep as [Hne _]. by apply Hne.
    - apply quiet_emits. apply quiet_bind; [apply quiet_print|]. intros _. apply quiet_ret. }
  destruct (Hmain st) as (calls & E & H). exists calls. split; [done|].
  intros c argv Hc. rewrite Forall_forall in H. by apply H.
Qed.

(** A run of hello with two separators among its arguments. *)
Lemma main_strips_separators_witness :
  entry_calls (main World.fs (World.run "hello" false ["--"; "a"; "--"; "b"]) World.st0).1
  = [[["a"; "b"]]]
  ∧ ("--" ∉ ["a"; "b"]).
Proof.
  destruct (main_strips_separators
              World.fs (World.run "hello" false ["--"; "a"; "--"; "b"]) World.st0)
    as (calls & E & H).
  split; [vm_compute; reflexivity|].
  apply (H [["a"; "b"]] ["a"; "b"]); [|by left].
  assert (calls = [[["a"; "b"]]]) as ->; [|by left].
  vm_compute in E. symmetry. exact E.
Defined.

(** ** Reload *)

(** C6, as the code has it.  When the reload asked for by [--reload] raises
    an instance of [Exception], one warning line is printed, beginning with
    "[reload] failed, continuing without reload: ", and the run goes on to
    report and invoke the unit that [load_plugin] returned.  An exception
    outside [Exception] is not caught: it ends the run. *)
Theorem reload_failure_is_warning (fs : filesystem) (dir : string) (run : run_args)
    (st st1 st2 : interp) (m : nat) (label : string) (e : exn) :
  reload run = true →
  load_plugin fs (target run) dir st = (st1, Return (m, label)) →
  Importlib.reload m st1 = (st2, Raise e) →
  (isinstance e Exception = true →
   ∃ detail,
     main_run fs dir run st
     = call_plugin m (filter (λ a, a ≠ "--") (plugin_args run))
         (set_stdout
            (λ out, out ++ ("[reload] failed, continuing without reload: " +:+ detail)
                           :: run_lines st2 m label)
            st2))
  ∧ (isinstance e Exception = false → main_run fs dir run st = (st2, Raise e)).
Proof.
  intros Hflag Hload Hreload.
  assert (∀ l : string,
            bind (Importlib.reload m) (λ m', ret (m', l)) st1 = (st2, Raise e)) as Hfail.
  { intros l. by apply bind_Raise. }
  unfold main_run. erewrite bind_Return by exact Hload. rewrite Hflag.
  split; intros Hexc.
  - exists (repr_exn e).
    erewrite bind_Return;
      [|erewrite try_except_caught; [reflexivity|apply Hfail|exact Hexc]].
    cbn beta iota.
    erewrite bind_Return by reflexivity.
    erewrite bind_Return by reflexivity.
    erewrite bind_Return by reflexivity.
    erewrite bind_Return by reflexivity.
    erewrite bind_Return by reflexivity.
    f_equal. unfold set_stdout, run_lines. simpl. f_equal. by rewrite <- !app_assoc.
  - apply bind_Raise. by apply try_except_uncaught.
Qed.

(** flaky, loaded by name, fails with [RuntimeError] when it is reloaded:
    the run goes on and its status is the one of the unit loaded first. *)
Lemma reload_failure_is_warning_witness :
  (main_run World.fs "./plugins"
     {| target := "name:flaky"; reload := true; plugin_args := ["x"] |} World.st0).2
  = Return 7
  ∧ entry_calls (main_run World.fs "./plugins"
                   {| target := "name:flaky"; reload := true; plugin_args := ["x"] |}
                   World.st0).1
    = [[["x"]]].
Proof.
  destruct (reload_failure_is_warning World.fs "./plugins"
              {| target := "name:flaky"; reload := true; plugin_args := ["x"] |}
              World.st0 World.st_flaky World.st_flaky_reloaded 0%nat "name:flaky"
              (Exn RuntimeError "stale state"))
    as (Hcaught & _).
  - reflexivity.
  - apply (run_eq (load_plugin World.fs "name:flaky" "./plugins" World.st0)).
    vm_compute. reflexivity.
  - apply (run_eq (Importlib.reload 0%nat World.st_flaky)). vm_compute. reflexivity.
  - destruct (Hcaught eq_refl) as [detail ->]. split; vm_compute; reflexivity.
Defined.

(** C6 as stated fails for an exception that is not an [Exception]: once,
    loaded by name and reloaded, raises [SystemExit]; the run ends with that
    exception, nothing is printed and the entry point is never called. *)
Lemma reload_system_exit_counterexample :
  isinstance (Exn SystemExit "3") Exception = false
  ∧ (Importlib.reload 0%nat (load_plugin World.fs "name:once" "./plugins" World.st0).1).2
    = Raise (Exn SystemExit "3")
  ∧ (main World.fs (World.run "name:once" true ["x"]) World.st0).2
    = Raise (Exn SystemExit "3")
  ∧ stdout (main World.fs (World.run "name:once" true ["x"]) World.st0).1 = []
  ∧ entry_calls (main World.fs (World.run "name:once" true ["x"]) World.st0).1 = [].
Proof. vm_compute. repeat split. Qed.


(** * Further properties of the runner *)

(** ** Invocation, case by case *)

Lemma set_entry_calls_app (l1 l2 : list (list (list string))) (st : interp) :
  set_entry_calls (λ l, l ++ l2) (set_entry_calls (λ l, l ++ l1) st)
  = set_entry_calls (λ l, l ++ l1 ++ l2) st.
Proof. unfold set_entry_calls. simpl. by rewrite app_assoc. Qed.

Lemma call_plugin_try (module : nat) (fn : pyvalue) (argv : list string) (st : interp) :
  heap st !! module ≫= (λ m, mod_dict m !! "main") = Some fn →
  call_plugin module argv st
  = try_except (bind (call fn [argv]) (λ r, lift (py_int r))) TypeError
      (λ _, bind (call fn []) (λ r, lift (py_int r))) st.
Proof.
  intros Hfn. unfold call_plugin. unfold bind at 1, get at 1, hasattr.
  rewrite Hfn, bool_decide_eq_true_2 by eauto. cbn [negb].
  unfold bind at 1, getattr at 1. by rewrite Hfn.
Qed.

Lemma call_run (fn : pyvalue) (args : list (list string)) (st : interp) :
  bind (call fn args) (λ r, lift (py_int r)) st
  = (set_entry_calls (λ l, l ++ [args]) st,
     match py_call fn args with Return r => py_int r | Raise e => Raise e end).
Proof. unfold call, bind, modify, lift. simpl. by destruct (py_call fn args). Qed.

(** X1.  An entry point that takes the argument list and returns something
    [int()] accepts is called once, with the argument list, and the integer
    is the status. *)
Theorem call_plugin_one_call (module : nat) (fn r : pyvalue) (argv : list string)
    (z : Z) (st : interp) :
  heap st !! module ≫= (λ m, mod_dict m !! "main") = Some fn →
  py_call fn [argv] = Return r →
  py_int r = Return z →
  call_plugin module argv st = (set_entry_calls (λ l, l ++ [[argv]]) st, Return z).
Proof.
  intros Hfn Hcall Hint. rewrite (call_plugin_try _ fn) by done.
  unfold try_except. by rewrite call_run, Hcall, Hint.
Qed.

Lemma call_plugin_one_call_witness :
  call_plugin 0%nat ["x"; "y"] World.st_hello
  = (set_entry_calls (λ l, l ++ [[["x"; "y"]]]) World.st_hello, Return 0).
Proof.
  apply (call_plugin_one_call 0%nat (PyFunc 1 (Some 1%nat) (λ _, Return (PyInt 0))) (PyInt 0));
    reflexivity.
Defined.

(** X2.  An entry point that takes no argument is first called with the
    argument list, which its arity rejects, and then without arguments; the
    status is what the second call returns. *)
Theorem call_plugin_zero_arg_fallback (module : nat)
    (body : list (list string) → outcome pyvalue) (r : pyvalue) (argv : list string)
    (z : Z) (st : interp) :
  heap st !! module ≫= (λ m, mod_dict m !! "main") = Some (PyFunc 0 (Some 0%nat) body) →
  body [] = Return r →
  py_int r = Return z →
  call_plugin module argv st = (set_entry_calls (λ l, l ++ [[argv]; []]) st, Return z).
Proof.
  intros Hfn Hbody Hint. rewrite (call_plugin_try _ (PyFunc 0 (Some 0%nat) body)) by done.
  unfold try_except. rewrite call_run. cbn [py_call length Nat.leb andb isinstance exn_cls].
  change (issubclass TypeError TypeError) with true. cbn iota.
  rewrite call_run. cbn [py_call length Nat.leb andb]. rewrite Hbody, Hint.
  by rewrite set_entry_calls_app.
Qed.

Lemma call_plugin_zero_arg_fallback_witness :
  call_plugin 0%nat ["x"; "y"] World.st_noargs
  = (set_entry_calls (λ l, l ++ [[["x"; "y"]]; []]) World.st_noargs, Return 4).
Proof.
  apply (call_plugin_zero_arg_fallback 0%nat (λ _, Return (PyInt 4)) (PyInt 4)); reflexivity.
Defined.

(** X3.  An exception of the first call that is not a [TypeError], raised
    by the entry point or by [int()] on its result, comes out of
    [call_plugin] as it is; there is no second call. *)
Theorem call_plugin_propagates (module : nat) (fn : pyvalue) (argv : list string)
    (e : exn) (st : interp) :
  heap st !! module ≫= (λ m, mod_dict m !! "main") = Some fn →
  py_call fn [argv] = Raise e ∨ (∃ r, py_call fn [argv] = Return r ∧ py_int r = Raise e) →
  isinstance e TypeError = false →
  call_plugin module argv st = (set_entry_calls (λ l, l ++ [[argv]]) st, Raise e).
Proof.
  intros Hfn Hcall Hty. rewrite (call_plugin_try _ fn) by done.
  unfold try_except. rewrite call_run.
  destruct Hcall as [-> | (r & -> & ->)]; by rewrite Hty.
Qed.

Lemma call_plugin_propagates_witness :
  call_plugin 0%nat ["x"] World.st_failing
  = (set_entry_calls (λ l, l ++ [[["x"]]]) World.st_failing,
     Raise (Exn ValueError "no such task")).
Proof.
  apply (call_plugin_propagates 0%nat World.failing_main); [reflexivity|by left|reflexivity].
Defined.

(** X4.  A [main] that is not callable passes the [hasattr] test; both
    attempts to call it fail, and the [TypeError] of the second one comes
    out. *)
Theorem call_plugin_not_callable (module : nat) (v : pyvalue) (argv : list string)
    (st : interp) :
  heap st !! module ≫= (λ m, mod_dict m !! "main") = Some v →
  (∀ lo hi body, v ≠ PyFunc lo hi body) →
  call_plugin module argv st
  = (set_entry_calls (λ l, l ++ [[argv]; []]) st,
     Raise (Exn TypeError (Str.repr (type_name v) +:+ " object is not callable"))).
Proof.
  intros Hv Hnf. rewrite (call_plugin_try _ v) by done.
  unfold try_except. rewrite call_run.
  assert (∀ args, py_call v args
                  = Raise (Exn TypeError (Str.repr (type_name v) +:+ " object is not callable")))
    as Hcall.
  { intros args. destruct v; try done. by destruct (Hnf min_args max_args body). }
  rewrite Hcall. cbn [isinstance exn_cls]. change (issubclass TypeError TypeError) with true.
  cbn iota. rewrite call_run, Hcall. by rewrite set_entry_calls_app.
Qed.

Lemma call_plugin_not_callable_witness :
  call_plugin 0%nat ["x"] World.st_number
  = (set_entry_calls (λ l, l ++ [[["x"]]; []]) World.st_number,
     Raise (Exn TypeError "'int' object is not callable")).
Proof. apply (call_plugin_not_callable 0%nat (PyInt 5)); [reflexivity|discriminate]. Defined.

(** ** Loading, case by case *)

(** X5.  A file that exists but whose suffix no loader handles is refused
    with [ImportError]; the interpreter is left untouched. *)
Theorem import_from_file_no_loader (fs : filesystem) (module_name path : string)
    (st : interp) :
  fs_exists fs (fs_resolve fs path) = true →
  fs_loader fs (fs_resolve fs path) = None →
  ∃ e, import_from_file fs module_name path st = (st, Raise e) ∧ exn_cls e = ImportError.
Proof. intros Hex Hload. unfold import_from_file. rewrite Hex, Hload. simpl. eauto. Qed.

Lemma import_from_file_no_loader_witness :
  ∃ e, import_from_file World.fs "__plugin__notes" "notes.txt" World.st0 = (World.st0, Raise e)
       ∧ exn_cls e = ImportError.
Proof. apply import_from_file_no_loader; reflexivity. Defined.

(** What a load from a file that returns leaves behind: the unit carries the
    logical name and a spec of that name, and the cache maps the name to
    it. *)
Lemma import_from_file_unit (fs : filesystem) (n path : string) (st st' : interp) (m : nat) :
  import_from_file fs n path st = (st', Return m) →
  ∃ mo spec,
    heap st' !! m = Some mo
    ∧ mod_name mo = n
    ∧ mod_file mo = Some (fs_resolve fs path)
    ∧ mod_spec mo = Some spec
    ∧ spec_name spec = n
    ∧ sys_modules st' !! n = Some m
    ∧ sys_meta_path st' = sys_meta_path st.
Proof.
  unfold import_from_file. destruct (negb _); [intros [=]|].
  destruct (fs_loader fs _) as [body|]; [|intros [=]].
  unfold bind, modify, ret, Importlib.module_from_spec, Importlib.exec_module. simpl.
  rewrite lookup_insert_eq. simpl.
  destruct (body _ _) as [d [e|]]; simpl; [intros [=]|]. intros [= <- <-]. simpl.
  rewrite !lookup_insert_eq. eexists _, _. repeat split.
Qed.

Lemma contains_startswith (n : string) (c : ascii) :
  Str.contains n c = false → Str.startswith n (String c EmptyString) = false.
Proof.
  destruct n as [|d n]; [done|]. cbn [Str.contains Str.startswith].
  by destruct (Ascii.eqb c d).
Qed.

(** X7.  For a name without a dot: a load by name of a module that is not
    cached and that no finder knows raises [ModuleNotFoundError] and
    changes nothing.  When a finder knows it and its code raises, the
    exception comes out and the name is not left in the cache, unlike a
    load from a file.  The empty name is refused with [ValueError]. *)
Theorem import_by_name_failure (n : string) (st : interp) :
  (n = "" → ∃ e, import_by_name n st = (st, Raise e) ∧ exn_cls e = ValueError)
  ∧ (n ≠ "" → Str.contains n "." = false → sys_modules st !! n = None →
     (Importlib.find_spec_chain (sys_meta_path st) n = NoMatch →
      ∃ e, import_by_name n st = (st, Raise e) ∧ exn_cls e = ModuleNotFoundError)
     ∧ (∀ spec body e,
          Importlib.find_spec_chain (sys_meta_path st) n = Matched spec →
          spec_loader spec = Some body →
          (body (<[spec_name spec := next_id st]> (sys_modules st)) ∅).2 = Some e →
          ∃ st', import_by_name n st = (st', Raise e)
                 ∧ sys_modules st' !! spec_name spec = None
                 ∧ executed st' = executed st ++ [next_id st])).
Proof.
  split.
  { intros ->. eexists. split; reflexivity. }
  intros Hne Hdot Hc. unfold import_by_name, Importlib.import_module.
  rewrite (contains_startswith n "." Hdot), decide_False, Hc by done. split.
  - intros ->. eauto.
  - intros spec body e -> Hbody He.
    unfold Importlib.load_unlocked, bind, modify, Importlib.module_from_spec. simpl.
    rewrite Hbody. unfold Importlib.exec_module. simpl. rewrite lookup_insert_eq. simpl.
    destruct (body _ _) as [d r]. simpl in He. subst r. simpl.
    eexists. split; [reflexivity|]. simpl. by rewrite lookup_delete_eq.
Qed.

Lemma import_by_name_failure_witness :
  (∃ e, import_by_name "" World.st0 = (World.st0, Raise e) ∧ exn_cls e = ValueError)
  ∧ (∃ e, import_by_name "nope" World.st0 = (World.st0, Raise e)
          ∧ exn_cls e = ModuleNotFoundError)
  ∧ (∃ st', import_by_name "broken" World.st_broken_finder
            = (st', Raise (Exn ValueError "bad configuration"))
            ∧ sys_modules st' !! "broken" = None
            ∧ executed st' = [0%nat]).
Proof.
  split; [|split].
  - by apply (import_by_name_failure "" World.st0).
  - apply (proj2 (import_by_name_failure "nope" World.st0)); done.
  - assert ("broken" ≠ "") as Hne by done.
    apply (proj2 (proj2 (import_by_name_failure "broken" World.st_broken_finder)
                    Hne eq_refl eq_refl)
             {| spec_name := "broken"; spec_origin := None;
                spec_loader := Some World.broken_body |} World.broken_body);
      reflexivity.
Defined.

(** ** The run subcommand *)

(** [main_run] once the plugin is loaded and the reload step is over. *)
Lemma main_run_report (fs : filesystem) (dir : string) (run : run_args)
    (st st1 st2 : interp) (m m2 : nat) (label label2 : string) :
  load_plugin fs (target run) dir st = (st1, Return (m, label)) →
  (if reload run
   then try_except
          (bind (Importlib.reload m) (λ m', ret (m', label +:+ " (reloaded)")))
          Exception
          (λ e, bind (print ("[reload] failed, continuing without reload: " +:+ repr_exn e))
                  (λ _, ret (m, label)))
   else ret (m, label)) st1 = (st2, Return (m2, label2)) →
  main_run fs dir run st
  = call_plugin m2 (filter (λ a, a ≠ "--") (plugin_args run))
      (set_stdout (λ out, out ++ run_lines st2 m2 label2) st2).
Proof.
  intros Hload Hreload. unfold main_run.
  erewrite bind_Return by exact Hload. cbn beta iota.
  erewrite bind_Return by exact Hreload. cbn beta iota.
  erewrite bind_Return by reflexivity.
  erewrite bind_Return by reflexivity.
  erewrite bind_Return by reflexivity.
  erewrite bind_Return by reflexivity.
  erewrite bind_Return by reflexivity.
  f_equal. unfold set_stdout, run_lines. simpl. f_equal. by rewrite <- !app_assoc.
Qed.

(** A load by file leaves a unit that the finders cannot find again: the
    reload raises after it has put [None] in the place of the spec. *)
Lemma reload_unknown_name (n : string) (m : nat) (mo : module_obj) (spec : ModuleSpec)
    (st : interp) :
  heap st !! m = Some mo → mod_spec mo = Some spec → spec_name spec = n →
  sys_modules st !! n = Some m →
  Importlib.find_spec_chain (sys_meta_path st) n = NoMatch →
  Importlib.reload m st
  = (set_heap (insert m (without_spec mo)) st,
     Raise (Exn ModuleNotFoundError ("spec not found for the module " +:+ Str.repr n))).
Proof.
  intros Hm Hspec Hname Hc Hfind. unfold Importlib.reload, name_of_unit.
  rewrite Hm, Hspec, Hname. rewrite decide_True by done. by rewrite Hfind.
Qed.

(** X8.  [--reload] on a plugin that was loaded from a file, when its
    logical name "__plugin__..." has no dot in it and is one that the
    finders, asked after the load, do not know: the reload raises
    [ModuleNotFoundError], having
    set the spec of the unit to [None]; the warning line is printed, and
    the unit of the first load is reported and invoked. *)
Theorem reload_of_file_plugin (fs : filesystem) (dir : string) (run : run_args)
    (st st1 : interp) (m : nat) (label : string) :
  reload run = true →
  is_Some (intent_file fs (parse (target run) dir)) →
  Str.contains (logical_name (parse (target run) dir)) "." = false →
  load_plugin fs (target run) dir st = (st1, Return (m, label)) →
  Importlib.find_spec_chain (sys_meta_path st1) (logical_name (parse (target run) dir))
  = NoMatch →
  ∃ mo e detail,
    heap st1 !! m = Some mo
    ∧ Importlib.reload m st1 = (set_heap (insert m (without_spec mo)) st1, Raise e)
    ∧ exn_cls e = ModuleNotFoundError
    ∧ main_run fs dir run st
      = call_plugin m (filter (λ a, a ≠ "--") (plugin_args run))
          (set_stdout
             (λ out, out ++ ("[reload] failed, continuing without reload: " +:+ detail)
                            :: run_lines st1 m label)
             (set_heap (insert m (without_spec mo)) st1)).
Proof.
  intros Hflag [p Hfile] _ Hload Hfind.
  pose proof Hload as Hload'. rewrite load_plugin_refines in Hload'.
  unfold load_intent, bind in Hload'. rewrite Hfile in Hload'.
  destruct (import_from_file fs _ p st) as [st1' [m'|e]] eqn:Himp; [|done].
  injection Hload' as -> -> _.
  destruct (import_from_file_unit _ _ _ _ _ _ Himp)
    as (mo & spec & Hm & _ & _ & Hspec & Hname & Hc & _).
  pose proof (reload_unknown_name _ _ _ _ _ Hm Hspec Hname Hc Hfind) as Hreload.
  eexists mo, _, _. split; [exact Hm|]. split; [exact Hreload|]. split; [reflexivity|].
  erewrite main_run_report; [|exact Hload|].
  2:{ rewrite Hflag. erewrite try_except_caught;
        [reflexivity|by apply bind_Raise|reflexivity]. }
  f_equal. unfold set_stdout, run_lines, name_of, file_of. simpl.
  rewrite lookup_insert_eq, Hm. simpl. f_equal. by rewrite <- app_assoc.
Qed.

Lemma reload_of_file_plugin_witness :
  ∃ mo e detail,
    heap World.st_hello !! 0%nat = Some mo
    ∧ Importlib.reload 0%nat World.st_hello
      = (set_heap (insert 0%nat (without_spec mo)) World.st_hello, Raise e)
    ∧ exn_cls e = ModuleNotFoundError
    ∧ main_run World.fs "./plugins"
        {| target := "hello"; reload := true; plugin_args := ["x"] |} World.st0
      = call_plugin 0%nat ["x"]
          (set_stdout
             (λ out, out ++ ("[reload] failed, continuing without reload: " +:+ detail)
                            :: run_lines World.st_hello 0%nat
                                 "plugin:/work/plugins/hello.py")
             (set_heap (insert 0%nat (without_spec mo)) World.st_hello)).
Proof.
  apply (reload_of_file_plugin World.fs "./plugins"
           {| target := "hello"; reload := true; plugin_args := ["x"] |}
           World.st0 World.st_hello 0%nat "plugin:/work/plugins/hello.py").
  - reflexivity.
  - by eexists.
  - reflexivity.
  - apply (run_eq (load_plugin World.fs "hello" "./plugins" World.st0)).
    vm_compute. reflexivity.
  - reflexivity.
Defined.

(** X9.  A run of a plugin whose file is missing ends with
    [FileNotFoundError] before anything is printed, loaded or called, with
    or without [--reload]. *)
Theorem main_run_missing_file (fs : filesystem) (dir p : string) (run : run_args)
    (st : interp) :
  intent_file fs (parse (target run) dir) = Some p →
  fs_exists fs (fs_resolve fs p) = false →
  ∃ e, main_run fs dir run st = (st, Raise e) ∧ exn_cls e = FileNotFoundError.
Proof.
  intros Hfile Hmiss.
  exists (Exn FileNotFoundError ("Plugin file not found: " +:+ fs_resolve fs p)).
  split; [|reflexivity].
  unfold main_run. apply bind_Raise. rewrite load_plugin_refines.
  unfold load_intent. apply bind_Raise. rewrite Hfile.
  by apply import_from_file_missing.
Qed.

Lemma main_run_missing_file_witness :
  ∃ e, main_run World.fs "./plugins"
         {| target := "nope"; reload := true; plugin_args := [] |} World.st0
       = (World.st0, Raise e)
       ∧ exn_cls e = FileNotFoundError.
Proof.
  apply (main_run_missing_file World.fs "./plugins" "/work/plugins/nope.py"); reflexivity.
Defined.

(** X10.  Without [--reload] the unit that [load_plugin] returned is
    reported and invoked.  With a reload that returns, the unit invoked is
    still that one, now re-executed, and the label ends in " (reloaded)". *)
Theorem main_run_invokes_loaded_unit (fs : filesystem) (dir : string) (run : run_args)
    (st st1 : interp) (m : nat) (label : string) :
  load_plugin fs (target run) dir st = (st1, Return (m, label)) →
  (reload run = false →
   main_run fs dir run st
   = call_plugin m (filter (λ a, a ≠ "--") (plugin_args run))
       (set_stdout (λ out, out ++ run_lines st1 m label) st1))
  ∧ (∀ st2 m', reload run = true → Importlib.reload m st1 = (st2, Return m') →
       m' = m
       ∧ main_run fs dir run st
         = call_plugin m (filter (λ a, a ≠ "--") (plugin_args run))
             (set_stdout (λ out, out ++ run_lines st2 m (label +:+ " (reloaded)")) st2)).
Proof.
  intros Hload. split.
  - intros Hflag. apply (main_run_report fs dir run st st1 st1 m m label label Hload).
    by rewrite Hflag.
  - intros st2 m' Hflag Hreload.
    pose proof (reload_same_object _ _ _ _ Hreload) as ->. split; [done|].
    apply (main_run_report fs dir run st st1 st2 m m label _ Hload).
    rewrite Hflag. unfold try_except. by erewrite bind_Return by exact Hreload.
Qed.

Lemma main_run_invokes_loaded_unit_witness :
  main_run World.fs "./plugins"
    {| target := "hello"; reload := false; plugin_args := ["x"] |} World.st0
  = call_plugin 0%nat ["x"]
      (set_stdout
         (λ out, out ++ run_lines World.st_hello 0%nat "plugin:/work/plugins/hello.py")
         World.st_hello)
  ∧ main_run World.fs "./plugins"
      {| target := "name:json"; reload := true; plugin_args := [] |} World.st0
    = call_plugin 0%nat []
        (set_stdout
           (λ out, out ++ run_lines (Importlib.reload 0%nat World.st_json).1 0%nat
                            "name:json (reloaded)")
           (Importlib.reload 0%nat World.st_json).1).
Proof.
  split.
  - apply (main_run_invokes_loaded_unit World.fs "./plugins"
             {| target := "hello"; reload := false; plugin_args := ["x"] |}
             World.st0 World.st_hello 0%nat "plugin:/work/plugins/hello.py");
      [|reflexivity].
    apply (run_eq (load_plugin World.fs "hello" "./plugins" World.st0)).
    vm_compute. reflexivity.
  - apply (main_run_invokes_loaded_unit World.fs "./plugins"
             {| target := "name:json"; reload := true; plugin_args := [] |}
             World.st0 World.st_json 0%nat "name:json") with (m' := 0%nat);
      [|reflexivity|].
    + apply (run_eq (load_plugin World.fs "name:json" "./plugins" World.st0)).
      vm_compute. reflexivity.
    + apply (run_eq (Importlib.reload 0%nat World.st_json)). vm_compute. reflexivity.
Defined.

(** ** The options and the listing *)

Lemma find_spec_origin_state (n : string) (st : interp) : (find_spec_origin n st).1 = st.
Proof.
  unfold find_spec_origin, bind, Importlib.util_find_spec.
  destruct (sys_modules st !! n) as [id|].
  - by destruct (heap st !! id ≫= mod_spec).
  - by destruct (Importlib.find_spec_chain _ _).
Qed.

(** X11.  For a name without a dot, [find_spec_origin] only looks: the
    interpreter is left as it is, nothing is imported.  For such a name
    that is not cached the answer follows the first finder that knows the
    name, "NOT FOUND" when none does, and an exception of a finder comes
    out; for a cached name it is the origin of the spec of the cached unit.
    A spec without origin gives "None". *)
Theorem find_spec_origin_lookup (n : string) (st : interp) :
  Str.contains n "." = false →
  (find_spec_origin n st).1 = st
  ∧ (sys_modules st !! n = None →
     (find_spec_origin n st).2
     = match Importlib.find_spec_chain (sys_meta_path st) n with
       | Matched s => Return (default "None" (spec_origin s))
       | NoMatch => Return "NOT FOUND"
       | FindError e => Raise e
       end)
  ∧ (∀ id mo s,
       sys_modules st !! n = Some id → heap st !! id = Some mo → mod_spec mo = Some s →
       (find_spec_origin n st).2 = Return (default "None" (spec_origin s))).
Proof.
  intros _. split; [apply find_spec_origin_state|].
  unfold find_spec_origin, bind, Importlib.util_find_spec. split.
  - intros ->. by destruct (Importlib.find_spec_chain _ _).
  - intros id mo s -> Hm Hs. rewrite Hm. simpl. by rewrite Hs.
Qed.

Lemma find_spec_origin_lookup_witness :
  (find_spec_origin "nope" World.st0).2 = Return "NOT FOUND"
  ∧ (find_spec_origin "__plugin__hello" World.st_hello).2
    = Return "/work/plugins/hello.py".
Proof.
  split.
  - rewrite (proj1 (proj2 (find_spec_origin_lookup "nope" World.st0 eq_refl))); reflexivity.
  - apply (proj2 (proj2 (find_spec_origin_lookup "__plugin__hello" World.st_hello eq_refl))
             0%nat
             {| mod_name := "__plugin__hello"; mod_file := Some "/work/plugins/hello.py";
                mod_spec := Some {| spec_name := "__plugin__hello";
                                    spec_origin := Some "/work/plugins/hello.py";
                                    spec_loader := Some World.hello_body |};
                mod_dict := {[ "main" := PyFunc 1 (Some 1%nat) (λ _, Return (PyInt 0)) ]} |}
             {| spec_name := "__plugin__hello";
                spec_origin := Some "/work/plugins/hello.py";
                spec_loader := Some World.hello_body |});
      reflexivity.
Defined.

Lemma print_meta_path_run (st : interp) :
  print_meta_path st
  = (set_stdout
       (λ out, out ++ "[sys.meta_path] import finders order:"
                      :: ((λ f, " - " +:+ finder_type f) <$> sys_meta_path st))
       st, Return tt).
Proof.
  unfold print_meta_path.
  erewrite bind_Return by reflexivity.
  erewrite bind_Return by reflexivity.
  rewrite (for_each_print (λ f, " - " +:+ finder_type f)). simpl.
  by rewrite set_stdout_app.
Qed.

(** X12.  [print_meta_path] returns after printing its heading and then one
    line per finder, in the order in which the finders are asked; nothing
    else changes. *)
Theorem print_meta_path_lines (st : interp) :
  print_meta_path st
  = (set_stdout
       (λ out, out ++ "[sys.meta_path] import finders order:"
                      :: ((λ f, " - " +:+ finder_type f) <$> sys_meta_path st))
       st, Return tt).
Proof. apply print_meta_path_run. Qed.

Section PrintsOnly.

Context {A B : Type}.

Lemma prints_only_ret (a : A) : prints_only (ret a).
Proof. intros st. exists []. simpl. by rewrite set_stdout_id. Qed.

Lemma prints_only_print (line : string) : prints_only (print line).
Proof. intros st. by exists [line]. Qed.

Lemma prints_only_bind (m : Py A) (k : A → Py B) :
  prints_only m → (∀ a, prints_only (k a)) → prints_only (bind m k).
Proof.
  intros Hm Hk st. unfold bind. destruct (Hm st) as (l1 & E1).
  destruct (m st) as [st1 [a|e]]; simpl in *; [|by exists l1].
  destruct (Hk a st1) as (l2 & E2). exists (l1 ++ l2).
  by rewrite E2, E1, set_stdout_app.
Qed.

End PrintsOnly.

Lemma prints_only_main_options (args : cli_args) : prints_only (main_options args).
Proof.
  unfold main_options. apply prints_only_bind.
  - destruct (meta_path args); [|apply prints_only_ret].
    intros st. rewrite print_meta_path_run. by eexists.
  - intros _. destruct (where_ args) as [w|]; [|apply prints_only_ret].
    case_decide; [apply prints_only_ret|].
    apply prints_only_bind; [|intros origin; apply prints_only_print].
    intros st. exists []. rewrite set_stdout_id. apply find_spec_origin_state.
Qed.

(** X13.  With [--where] absent or given a name without a dot, the
    options [--meta-path] and [--where] print and do nothing else: no
    module is imported, the cache, the units and the finders are as
    before. *)
Theorem main_options_prints_only (args : cli_args) (st : interp) :
  (∀ w, where_ args = Some w → Str.contains w "." = false) →
  ∃ lines, (main_options args st).1 = set_stdout (λ out, out ++ lines) st.
Proof. intros _. apply prints_only_main_options. Qed.

Lemma main_options_prints_only_witness :
  ∃ lines,
    (main_options
       {| plugin_dir := "./plugins"; list_flag := false; where_ := Some "json";
          meta_path := true; cmd := None |} World.st0).1
    = set_stdout (λ out, out ++ lines) World.st0.
Proof. apply main_options_prints_only. by intros w [= <-]. Defined.

(** X14.  With [--list], [main] prints the listing and returns 0; a run
    subcommand given on the same command line is not carried out. *)
Theorem main_list_only (fs : filesystem) (args : cli_args) (st st1 : interp) :
  list_flag args = true →
  main_options args st = (st1, Return tt) →
  main fs args st
  = (set_stdout
       (λ out, out ++ list_lines (fs_resolve fs (plugin_dir args))
                        (list_plugins fs (plugin_dir args)))
       st1, Return 0).
Proof.
  intros Hlist Hopt. unfold main. erewrite bind_Return by exact Hopt. rewrite Hlist.
  unfold main_list, list_lines. destruct (list_plugins fs (plugin_dir args)) as [|pi plugs].
  - erewrite bind_Return by reflexivity. erewrite bind_Return by reflexivity.
    unfold ret. by rewrite set_stdout_app.
  - erewrite bind_Return by reflexivity.
    erewrite bind_Return
      by apply (for_each_print (λ pi, " - " +:+ name pi +:+ " (" +:+ origin pi +:+ ")")).
    unfold ret. by rewrite set_stdout_app.
Qed.

Lemma main_list_only_witness :
  main World.fs
    {| plugin_dir := "./plugins"; list_flag := true; where_ := None; meta_path := false;
       cmd := Some {| target := "hello"; reload := false; plugin_args := [] |} |}
    World.st0
  = (set_stdout
       (λ out, out ++ ["[list] plugins in /work/plugins:";
                       " - a (/work/plugins/a.py)";
                       " - b (/work/plugins/b.py)"])
       World.st0, Return 0).
Proof.
  apply (main_list_only World.fs
           {| plugin_dir := "./plugins"; list_flag := true; where_ := None;
              meta_path := false;
              cmd := Some {| target := "hello"; reload := false; plugin_args := [] |} |});
    reflexivity.
Defined.

(** X15.  The listing does not depend on the order in which the operating
    system yields the entries of the directory. *)
Theorem list_plugins_order_independent (fs1 fs2 : filesystem) (dir : string) :
  fs_resolve fs1 dir = fs_resolve fs2 dir →
  fs_exists fs1 (fs_resolve fs1 dir) = fs_exists fs2 (fs_resolve fs2 dir) →
  fs_scandir fs1 (fs_resolve fs1 dir) ≡ₚ fs_scandir fs2 (fs_resolve fs2 dir) →
  list_plugins fs1 dir = list_plugins fs2 dir.
Proof.
  intros Hres Hex Hperm.
  destruct (list_plugins_files fs1 dir) as (l1 & -> & Hs1 & Hp1).
  destruct (list_plugins_files fs2 dir) as (l2 & -> & Hs2 & Hp2).
  rewrite Hres. f_equal. apply (StronglySorted_unique name_le); [done..|].
  rewrite Hp1, Hp2, Hex. destruct (fs_exists fs2 _); [|done]. by rewrite Hperm.
Qed.

Lemma list_plugins_order_independent_witness :
  list_plugins World.fs "./plugins" = list_plugins World.fs_shuffled "./plugins".
Proof.
  apply list_plugins_order_independent; [reflexivity..|].
  change (fs_scandir World.fs_shuffled (fs_resolve World.fs_shuffled "./plugins"))
    with (reverse (fs_scandir World.fs (fs_resolve World.fs "./plugins"))).
  by rewrite reverse_Permutation.
Defined.

(** ** Short names and the files they stand for *)

Lemma append_nil_r (s : string) : s +:+ "" = s.
Proof. induction s as [|c s IH]; [done|]. exact (f_equal (String c) IH). Qed.

Lemma append_assoc (a b c : string) : (a +:+ b) +:+ c = a +:+ (b +:+ c).
Proof. induction a as [|x a IH]; [done|]. exact (f_equal (String x) IH). Qed.

Lemma length_append (a b : string) :
  String.length (a +:+ b) = (String.length a + String.length b)%nat.
Proof. induction a as [|x a IH]; [done|]. exact (f_equal S IH). Qed.

Lemma take_drop (n : nat) (s : string) : Str.take n s +:+ Str.drop n s = s.
Proof.
  revert s. induction n as [|n IH]; intros [|c s]; try done.
  exact (f_equal (String c) (IH s)).
Qed.

Lemma take_append (a b : string) : Str.take (String.length a) (a +:+ b) = a.
Proof. induction a as [|x a IH]; [done|]. exact (f_equal (String x) IH). Qed.

Lemma endswith_slash (d : string) : Str.endswith d "/" = true → ∃ a, d = a +:+ "/".
Proof.
  unfold Str.endswith. intros H. apply andb_true_iff in H as [H _].
  apply String.eqb_eq in H. change (String.length "/") with 1%nat in H.
  exists (Str.take (String.length d - 1) d).
  rewrite <- H. symmetry. apply take_drop.
Qed.

Lemma contains_append (a b : string) (c : ascii) :
  Str.contains a c = false → Str.contains b c = false → Str.contains (a +:+ b) c = false.
Proof.
  intros Ha Hb. induction a as [|x a IH]; [done|]. simpl in *.
  destruct (Ascii.eqb c x); [done|]. by apply IH.
Qed.

Lemma rev_app_append (a b s : string) : String.rev_app a b +:+ s = String.rev_app a (b +:+ s).
Proof. revert b. induction a as [|x a IH]; intros b; [done|]. apply (IH (String x b)). Qed.

(** A string without the separator is one piece. *)
Lemma split_go_one (c : ascii) (s cur : string) :
  Str.contains s c = false → Str.split_go c s cur = [String.rev cur +:+ s].
Proof.
  revert cur. induction s as [|d s IH]; intros cur H.
  - cbn [Str.split_go]. by rewrite append_nil_r.
  - cbn [Str.split_go Str.contains] in *. destruct (Ascii.eqb c d); [done|].
    rewrite IH by done. unfold String.rev. cbn [String.rev_app].
    by rewrite !rev_app_append.
Qed.

(** What follows the last separator is the last piece. *)
Lemma split_go_last (c : ascii) (a s cur : string) :
  Str.contains s c = false → ∃ l, Str.split_go c (a +:+ String c s) cur = l ++ [s].
Proof.
  intros Hs. revert cur. induction a as [|d a IH]; intros cur; simpl.
  - rewrite Ascii.eqb_refl, split_go_one by done. by exists [String.rev cur].
  - destruct (Ascii.eqb c d).
    + destruct (IH "") as [l ->]. by exists (String.rev cur :: l).
    + apply IH.
Qed.

Lemma rfind_from_suffix (t : string) (i : nat) (found : option nat) :
  Str.rfind_from "." (t +:+ ".py") i found = Some (i + String.length t)%nat.
Proof.
  revert i found. induction t as [|c t IH]; intros i found; simpl.
  - f_equal. lia.
  - rewrite IH. f_equal. lia.
Qed.

(** The stem of the file that a short name stands for is the short name. *)
Lemma stem_of_short_name (d t : string) :
  t ≠ "" → Str.contains t "/" = false → Path.stem (Path.joinpath d (t +:+ ".py")) = t.
Proof.
  intros Ht Hslash.
  assert (Path.name (Path.joinpath d (t +:+ ".py")) = t +:+ ".py") as Hname.
  { assert (Str.contains (t +:+ ".py") "/" = false) as Hb by by apply contains_append.
    assert (∃ a, Path.joinpath d (t +:+ ".py") = a +:+ String "/" (t +:+ ".py"))
      as [a ->].
    { unfold Path.joinpath.
      assert (Str.startswith (t +:+ ".py") "/" = false) as ->.
      { destruct t as [|c t]; [done|].
        change (String c t +:+ ".py") with (String c (t +:+ ".py")).
        cbn [Str.startswith Str.contains] in *.
        by destruct (Ascii.eqb "/" c). }
      destruct (Str.endswith d "/") eqn:Hd; [|by exists d].
      apply endswith_slash in Hd as [a ->]. exists a. by rewrite append_assoc. }
    unfold Path.name, Path.parts, Str.split.
    destruct (split_go_last "/" a (t +:+ ".py") "" Hb) as [l ->].
    rewrite filter_app, filter_cons_True, filter_nil; [apply last_last|].
    split; destruct t as [|c [|c' t]]; done. }
  unfold Path.stem. rewrite Hname. unfold Str.rfind. rewrite rfind_from_suffix.
  rewrite length_append. simpl.
  assert ((0 <? String.length t)%nat = true) as ->.
  { apply Nat.ltb_lt. destruct t; [done|simpl; lia]. }
  assert ((String.length t <? String.length t + 3 - 1)%nat = true) as ->.
  { apply Nat.ltb_lt. lia. }
  apply take_append.
Qed.

(** X16.  A short name and the explicit path of the file it stands for
    are two targets for one file and one logical name: the stem of
    baseDir/T.py is T whenever T is not empty and has no "/" in it. *)
Theorem short_name_and_path_agree (fs : filesystem) (t dir : string) :
  t ≠ "" →
  Str.contains t "/" = false →
  Str.startswith t "path:" = false →
  Str.startswith t "name:" = false →
  let p := Path.joinpath (fs_resolve fs dir) (t +:+ ".py") in
  intent_file fs (parse t dir) = Some p
  ∧ intent_file fs (parse ("path:" +:+ p) dir) = Some p
  ∧ logical_name (parse ("path:" +:+ p) dir) = logical_name (parse t dir)
  ∧ logical_name (parse t dir) = "__plugin__" +:+ Path.stem p.
Proof.
  intros Ht Hslash Hp Hn p.
  assert (parse t dir = ByConventionDir dir t) as ->.
  { unfold parse. by rewrite Hp, Hn. }
  assert (parse ("path:" +:+ p) dir = ByExplicitPath p) as -> by done.
  unfold p. simpl. by rewrite stem_of_short_name.
Qed.

Lemma short_name_and_path_agree_witness :
  logical_name (parse "path:/work/plugins/hello.py" "./plugins")
  = logical_name (parse "hello" "./plugins").
Proof. apply (short_name_and_path_agree World.fs "hello" "./plugins"); done. Defined.

(** ** The demo program, line by line *)

Lemma import_module_stdout (n : string) (st : interp) :
  stdout (Importlib.import_module n st).1 = stdout st.
Proof.
  unfold Importlib.import_module.
  destruct (Str.startswith n "."); [done|]. case_decide; [done|].
  destruct (sys_modules st !! n); [done|].
  destruct (Importlib.find_spec_chain _ _) as [spec| |e]; try done.
  unfold Importlib.load_unlocked, bind, modify, Importlib.module_from_spec. simpl.
  destruct (spec_loader spec) as [body|]; simpl.
  - unfold Importlib.exec_module. simpl. rewrite lookup_insert_eq.
    destruct (body _ _) as [d [e|]]; simpl; [done|].
    unfold Importlib.sys_modules_get. simpl. by destruct (_ !! spec_name spec).
  - unfold Importlib.sys_modules_get. simpl. by destruct (_ !! spec_name spec).
Qed.

(** X17.  Run in an interpreter that has not imported demo_hook, the demo
    program returns 0 and prints: that demo_hook is not in [sys.modules],
    the finders with [DemoFinder] first (five at most), that demo_hook is in
    [sys.modules] after the import, and the three attributes that the
    finder's [exec_module] gave the module. *)
Theorem demo_main_output (st : interp) :
  sys_modules st !! "demo_hook" = None →
  (Demo.main st).2 = Return 0
  ∧ stdout (Demo.main st).1
    = stdout st
      ++ ["[before] demo_hook in sys.modules: False";
          "[install] inserting DemoFinder at sys.meta_path[0]";
          "[meta_path] current finders order:"]
      ++ ((λ f, " - " +:+ finder_type f) <$> take 5 (Demo.DemoFinder :: sys_meta_path st))
      ++ ["[import] importing demo_hook";
          "[after] demo_hook in sys.modules: True";
          "[demo_hook] VALUE = 123";
          "[demo_hook] hello() = hook works";
          "[demo_hook] __doc__ = Synthetic module created at import time by DemoFinder"].
Proof.
  intros Hc. unfold Demo.main.
  erewrite bind_Return by (unfold Demo.in_sys_modules, get; by rewrite Hc).
  erewrite bind_Return by reflexivity.
  erewrite bind_Return by reflexivity.
  erewrite bind_Return by reflexivity.
  erewrite bind_Return by reflexivity.
  erewrite bind_Return by reflexivity.
  erewrite bind_Return by apply for_each_print.
  erewrite bind_Return by reflexivity.
  match goal with
  | |- context [bind (Importlib.import_module _) _ ?s] =>
      destruct (demo_import s) as (st4 & Himp & Hcache & Hdict & Hmeta);
      [exact Hc|reflexivity|];
      pose proof (import_module_stdout "demo_hook" s) as Hout
  end.
  rewrite Himp in Hout. simpl in Himp, Hcache, Hdict, Hmeta, Hout.
  destruct (heap st4 !! next_id st) as [mo|] eqn:Hmo; [|done].
  injection Hdict as Hdict.
  erewrite bind_Return by exact Himp.
  erewrite bind_Return
    by (unfold Demo.in_sys_modules, get; simpl; by rewrite Hcache, lookup_insert_eq).
  erewrite bind_Return by reflexivity.
  erewrite bind_Return
    by (apply (getattr_Return _ mo "VALUE" (PyInt 123)); [exact Hmo|by rewrite Hdict]).
  erewrite bind_Return by reflexivity.
  erewrite bind_Return
    by (apply (getattr_Return _ mo "hello"); [exact Hmo|by rewrite Hdict]).
  erewrite bind_Return by reflexivity.
  erewrite bind_Return by reflexivity.
  erewrite bind_Return
    by (apply (getattr_Return _ mo "__doc__"); [exact Hmo|by rewrite Hdict]).
  erewrite bind_Return by reflexivity.
  split; [reflexivity|]. simpl. rewrite Hout. by rewrite <- !app_assoc.
Qed.

Lemma demo_main_output_witness :
  (Demo.main World.st0).2 = Return 0
  ∧ stdout (Demo.main World.st0).1
    = ["[before] demo_hook in sys.modules: False";
       "[install] inserting DemoFinder at sys.meta_path[0]";
       "[meta_path] current finders order:";
       " - DemoFinder";
       " - PathFinder";
       "[import] importing demo_hook";
       "[after] demo_hook in sys.modules: True";
       "[demo_hook] VALUE = 123";
       "[demo_hook] hello() = hook works";
       "[demo_hook] __doc__ = Synthetic module created at import time by DemoFinder"].
Proof. apply (demo_main_output World.st0). reflexivity. Defined.
